(** * Invoice actions and session-gated layout: a shallow embedding

    The development follows the server actions of the dashboard
    ([authenticate], [createInvoice], [updateInvoice], [deleteInvoice]) and the
    dashboard [Layout].  What the actions call but do not define -- the
    JavaScript run time ([Number], [toString], [??]), the zod schema
    combinators, the postgres.js tagged template, [revalidatePath],
    [redirect], [signIn] and [auth] -- is modelled beside them, each in a
    module of its own, so that the actions themselves read like the source. *)

From Stdlib Require Import ZArith NArith Ascii String List Bool Lia.
From Stdlib Require Import Floats.SpecFloat.
From stdpp Require Import base option list strings gmap.

Local Open Scope string_scope.

(** ** JavaScript values *)

Module JS.

(** A JavaScript number is an IEEE 754 binary64 value. *)
Definition number : Type := spec_float.

Definition prec : Z := 53.
Definition emax : Z := 1024.

Definition NaN : number := S754_nan.
Definition Infinity : number := S754_infinity false.
Definition zero : number := S754_zero false.

Definition of_Z (z : Z) : number := binary_normalize prec emax z 0 false.

Definition isNaN (x : number) : bool :=
  match x with S754_nan => true | _ => false end.

(** [x <= y] and [x > y]; both are false as soon as one side is NaN. *)
Definition le (x y : number) : bool := SFleb x y.
Definition gt (x y : number) : bool := SFltb y x.
Definition mul (x y : number) : number := SFmul prec emax x y.

(** [Number.isInteger]: the value [m * 2 ^ e] has no fractional part. *)
Definition isInteger (x : number) : bool :=
  match x with
  | S754_zero _ => true
  | S754_finite _ m e => ((0 <=? e) || (Z.pos m mod 2 ^ (- e) =? 0))%Z
  | _ => false
  end.

(** The binary64 value nearest to [n / d] (ties to even), for [0 <= n] and
    [0 < d]: the quotient is taken with more than 53 significant bits and a
    sticky bit for the remainder, and then rounded once. *)
Definition of_ratio (neg : bool) (n d : Z) : number :=
  if (n =? 0)%Z then S754_zero neg
  else
    let k := Z.max 0 (Z.log2 d - Z.log2 n + 64) in
    let num := (n * 2 ^ k)%Z in
    let q := (num / d)%Z in
    let sticky := if (num mod d =? 0)%Z then 0%Z else 1%Z in
    let m := (2 * q + sticky)%Z in
    binary_normalize prec emax (if neg then (- m)%Z else m) (- (k + 1)) false.

(** The value of [m * 10 ^ e10]. *)
Definition of_decimal (neg : bool) (m e10 : Z) : number :=
  if (0 <=? e10)%Z then of_ratio neg (m * 10 ^ e10) 1
  else of_ratio neg m (10 ^ (- e10)).

(** *** [Number(string)]: StringToNumber

    Strings are sequences of bytes (UTF-8); the parser works on the byte
    codes. *)

Definition codes (s : string) : list N :=
  map N_of_ascii (list_ascii_of_string s).

Definition is_ascii_ws (c : N) : bool :=
  ((9 <=? c) && (c <=? 13) || (c =? 32))%N.

(** White space and line terminators: TAB, LF, VT, FF, CR, SP, and in UTF-8
    U+00A0, U+1680, U+2000..U+200A, U+2028, U+2029, U+202F, U+205F, U+3000
    and U+FEFF. *)
Fixpoint skip_ws (l : list N) : list N :=
  match l with
  | [] => []
  | c :: r =>
    if is_ascii_ws c then skip_ws r
    else
      match r with
      | c1 :: r1 =>
        if ((c =? 194) && (c1 =? 160))%N then skip_ws r1
        else
          match r1 with
          | c2 :: r2 =>
            if ((c =? 225) && (c1 =? 154) && (c2 =? 128)
                || (c =? 226) && (c1 =? 128)
                   && ((128 <=? c2) && (c2 <=? 138) || (c2 =? 168)
                       || (c2 =? 169) || (c2 =? 175))
                || (c =? 226) && (c1 =? 129) && (c2 =? 159)
                || (c =? 227) && (c1 =? 128) && (c2 =? 128)
                || (c =? 239) && (c1 =? 187) && (c2 =? 191))%N
            then skip_ws r2 else l
          | [] => l
          end
      | [] => l
      end
  end.

Definition digit_in (base : N) (c : N) : option Z :=
  let v :=
    if ((48 <=? c) && (c <=? 57))%N then Some (c - 48)%N
    else if ((97 <=? c) && (c <=? 102))%N then Some (c - 87)%N
    else if ((65 <=? c) && (c <=? 70))%N then Some (c - 55)%N
    else None in
  match v with
  | Some d => if (d <? base)%N then Some (Z.of_N d) else None
  | None => None
  end.

(** The longest prefix of digits in [base]: its value in [acc], how many
    digits it has, and what follows it. *)
Fixpoint read_digits (base : N) (acc : Z) (cnt : Z) (l : list N)
  : Z * Z * list N :=
  match l with
  | c :: r =>
    match digit_in base c with
    | Some d => read_digits base (acc * Z.of_N base + d) (cnt + 1) r
    | None => (acc, cnt, l)
    end
  | [] => (acc, cnt, l)
  end.

Definition only_ws (l : list N) : bool :=
  match skip_ws l with [] => true | _ => false end.

(** ExponentPart (optional): [e] or [E], an optional sign, digits. *)
Definition read_exponent (l : list N) : option (Z * list N) :=
  match l with
  | c :: r =>
    if ((c =? 101) || (c =? 69))%N then
      let '(neg, r') :=
        match r with
        | s :: r0 =>
          if (s =? 45)%N then (true, r0)
          else if (s =? 43)%N then (false, r0) else (false, r)
        | [] => (false, r)
        end in
      let '(v, cnt, rest) := read_digits 10 0 0 r' in
      if (cnt =? 0)%Z then None
      else Some (if neg then (- v)%Z else v, rest)
    else Some (0%Z, l)
  | [] => Some (0%Z, l)
  end.

(** StrUnsignedDecimalLiteral, then only white space. *)
Definition read_unsigned_decimal (neg : bool) (l : list N) : number :=
  match l with
  | 73%N :: 110%N :: 102%N :: 105%N :: 110%N :: 105%N :: 116%N :: 121%N
    :: rest =>
    if only_ws rest then S754_infinity neg else NaN
  | _ =>
    let '(iv, icnt, r1) := read_digits 10 0 0 l in
    let '(mv, fcnt, r2) :=
      match r1 with
      | 46%N :: rf => read_digits 10 iv 0 rf
      | _ => (iv, 0%Z, r1)
      end in
    if (icnt + fcnt =? 0)%Z then NaN
    else
      match read_exponent r2 with
      | Some (e, rest) =>
        if only_ws rest then of_decimal neg mv (e - fcnt) else NaN
      | None => NaN
      end
  end.

Definition read_radix (base : N) (l : list N) : number :=
  let '(v, cnt, rest) := read_digits base 0 0 l in
  if (cnt =? 0)%Z then NaN
  else if only_ws rest then of_ratio false v 1 else NaN.

Definition StringToNumber (s : string) : number :=
  match skip_ws (codes s) with
  | [] => zero
  | 48%N :: c :: r =>
    if ((c =? 120) || (c =? 88))%N then read_radix 16 r
    else if ((c =? 111) || (c =? 79))%N then read_radix 8 r
    else if ((c =? 98) || (c =? 66))%N then read_radix 2 r
    else read_unsigned_decimal false (48%N :: c :: r)
  | 45%N :: r => read_unsigned_decimal true r
  | 43%N :: r => read_unsigned_decimal false r
  | l => read_unsigned_decimal false l
  end.

(** What the actions hand to the schema: [undefined], [null], a string or a
    number. *)
Inductive value : Type :=
| Undefined
| Null
| Str (s : string)
| Num (n : number).

(** [Number(v)]. *)
Definition Number (v : value) : number :=
  match v with
  | Undefined => NaN
  | Null => zero
  | Str s => StringToNumber s
  | Num n => n
  end.

(** [a ?? b]: the left operand unless it is [undefined] or [null]; an absent
    value is [None], on the left as [undefined] and in the result as
    [null]. *)
Definition nullish {A : Type} (a b : option A) : option A :=
  match a with Some _ => a | None => b end.

(** What is thrown and caught: [error instanceof AuthError] holds of the
    first constructor only; [redirect] throws the third. *)
Inductive Thrown : Type :=
| AuthError (type : string) (message : string)
| Error (message : string)
| NEXT_REDIRECT (url : string).

Definition message_of (e : Thrown) : string :=
  match e with
  | AuthError _ m => m
  | Error m => m
  | NEXT_REDIRECT _ => "NEXT_REDIRECT"
  end.

Inductive Completion (A : Type) : Type :=
| Normal (a : A)
| Throw (e : Thrown).
Arguments Normal {A} a.
Arguments Throw {A} e.

End JS.

(** ** FormData *)

Module FormData.

Inductive EntryValue : Type :=
| EntryString (s : string)
| EntryFile (name : string).

Definition t : Type := list (string * EntryValue).

(** [formData.get(name)]: the first value under [name], or [null]. *)
Fixpoint get (fd : t) (name : string) : option EntryValue :=
  match fd with
  | [] => None
  | (k, v) :: rest => if String.eqb k name then Some v else get rest name
  end.

Definition toString (v : EntryValue) : string :=
  match v with
  | EntryString s => s
  | EntryFile _ => "[object File]"
  end.

End FormData.

(** ** The zod combinators the schema uses (zod 3) *)

Module Zod.

Inductive IssueCode : Type := invalid_type | invalid_enum_value | too_small.

Record Issue : Type := { code : IssueCode; path : string; message : string }.

Inductive ParseReturn (A : Type) : Type :=
| OK (a : A)
| INVALID (issues : list (IssueCode * string)).
Arguments OK {A} a.
Arguments INVALID {A} issues.

Inductive ParsedType : Type := t_undefined | t_null | t_string | t_nan | t_number.

Definition getParsedType (v : JS.value) : ParsedType :=
  match v with
  | JS.Undefined => t_undefined
  | JS.Null => t_null
  | JS.Str _ => t_string
  | JS.Num n => if JS.isNaN n then t_nan else t_number
  end.

Definition type_name (t : ParsedType) : string :=
  match t with
  | t_undefined => "undefined"
  | t_null => "null"
  | t_string => "string"
  | t_nan => "nan"
  | t_number => "number"
  end.

(** The default error map, for the two codes whose message it writes. *)
Definition default_invalid_type (expected : string) (received : ParsedType)
  : string :=
  match received with
  | t_undefined => "Required"
  | _ => "Expected " ++ expected ++ ", received " ++ type_name received
  end.

Fixpoint joinValues (values : list string) : string :=
  match values with
  | [] => ""
  | [v] => "'" ++ v ++ "'"
  | v :: rest => "'" ++ v ++ "' | " ++ joinValues rest
  end.

Definition default_invalid_enum_value (options : list string)
           (received : string) : string :=
  "Invalid enum value. Expected " ++ joinValues options
  ++ ", received '" ++ received ++ "'".

(** The error map a schema gets from its creation parameters
    [{ invalid_type_error, required_error }]: the custom text is used for an
    [invalid_type] issue on data that is not [undefined]; on [undefined] the
    text is [required_error], and the default one when that is not given. *)
Definition customMap (invalid_type_error required_error : option string)
           (c : IssueCode) (data : JS.value) (defaultError : string)
  : string :=
  match c with
  | invalid_enum_value => defaultError
  | _ =>
    match data with
    | JS.Undefined => default defaultError required_error
    | _ =>
      match c with
      | invalid_type => default defaultError invalid_type_error
      | _ => defaultError
      end
    end
  end.

(** [z.string({ invalid_type_error })] *)
Definition string_ (invalid_type_error : option string) (data : JS.value)
  : ParseReturn string :=
  match data with
  | JS.Str s => OK s
  | _ =>
    INVALID [(invalid_type,
              customMap invalid_type_error None invalid_type data
                (default_invalid_type "string" (getParsedType data)))]
  end.

(** [z.coerce.number().gt(value, { message })]: the input is replaced by
    [Number(input)]; NaN is an [invalid_type] issue (no creation parameters:
    the default text); the check is [data <= value]. *)
Definition coerce_number_gt (value : JS.number) (msg : string)
           (data : JS.value) : ParseReturn JS.number :=
  let data' := JS.Num (JS.Number data) in
  match getParsedType data' with
  | t_number =>
    if JS.le (JS.Number data) value then INVALID [(too_small, msg)]
    else OK (JS.Number data)
  | received =>
    INVALID [(invalid_type, default_invalid_type "number" received)]
  end.

(** [z.enum(values, { invalid_type_error })] *)
Definition enum_ (values : list string) (invalid_type_error : option string)
           (data : JS.value) : ParseReturn string :=
  match data with
  | JS.Str s =>
    if existsb (String.eqb s) values then OK s
    else
      INVALID [(invalid_enum_value,
                customMap invalid_type_error None invalid_enum_value data
                  (default_invalid_enum_value values s))]
  | _ =>
    INVALID [(invalid_type,
              customMap invalid_type_error None invalid_type data
                (default_invalid_type (joinValues values)
                   (getParsedType data)))]
  end.

(** The issues of one key of an object schema. *)
Definition issues_at {A : Type} (key : string) (r : ParseReturn A)
  : list Issue :=
  match r with
  | OK _ => []
  | INVALID l =>
    map (fun i => {| code := fst i; path := key; message := snd i |}) l
  end.

Inductive SafeParseReturn (A : Type) : Type :=
| Success (data : A)
| Failure (error : list Issue).
Arguments Success {A} data.
Arguments Failure {A} error.

(** [error.flatten().fieldErrors]: the messages of the issues, by key, in
    the order of the issues; a key without issue is absent. *)
Definition flatten (error : list Issue) : gmap string (list string) :=
  foldl (fun m i =>
           <[path i := (default [] (m !! path i) ++ [message i])%list]> m)
        ∅ error.

End Zod.

(** ** The invoices table and the statements the actions send *)

Module Sql.

(** A row of [invoices]; a column holds what a statement bound to it, [None]
    being SQL NULL.  [id] and [date] are never bound by the actions: the
    storage assigns [id], and [date] is [now()]. *)
Record Invoice : Type := {
  id : string;
  customer_id : option string;
  amount : option JS.number;
  status : option string;
  date : Z
}.

(** The three templates of the actions, with their bound parameters. *)
Inductive Statement : Type :=
| INSERT (customer_id : option string) (amount : option JS.number)
         (status : option string)
| UPDATE (customer_id : option string) (amount : option JS.number)
         (status : option string) (id : string)
| DELETE (id : string).

Definition COALESCE {A : Type} (a b : option A) : option A :=
  match a with Some _ => a | None => b end.

(** The storage behind the [sql] handle: whether a statement fails on the
    current rows (and with which message), the identifier given to a new
    row, and the time [now()] returns.  A driver answers by the statement
    and the rows alone; a storage that is down for one call and up for the
    next is two drivers. *)
Record Driver : Type := {
  fails : Statement -> list Invoice -> option string;
  new_id : list Invoice -> string;
  now : Z
}.

(** What a statement that does not fail does to the table. *)
Definition run (drv : Driver) (st : Statement) (rows : list Invoice)
  : list Invoice :=
  match st with
  | INSERT c a s =>
    rows ++ [ {| id := new_id drv rows; customer_id := c; amount := a;
                 status := s; date := now drv |} ]
  | UPDATE c a s i =>
    map (fun r =>
           if String.eqb (id r) i then
             {| id := id r;
                customer_id := COALESCE c (customer_id r);
                amount := COALESCE a (amount r);
                status := COALESCE s (status r);
                date := date r |}
           else r) rows
  | DELETE i => List.filter (fun r => negb (String.eqb (id r) i)) rows
  end.

(** An UPDATE for which some [COALESCE] falls back on the stored value. *)
Definition keeps_previous (st : Statement) : bool :=
  match st with
  | UPDATE (Some _) (Some _) (Some _) _ => false
  | UPDATE _ _ _ _ => true
  | _ => false
  end.

End Sql.

(** ** Effects of an action

    An action runs on the table and yields its completion, the table it
    leaves and the calls it made, in order. *)

Inductive Effect : Type :=
| Query (st : Sql.Statement)
| Revalidate (path : string).

Record Run (A : Type) : Type := {
  outcome : JS.Completion A;
  table : list Sql.Invoice;
  effects : list Effect
}.
Arguments outcome {A} r.
Arguments table {A} r.
Arguments effects {A} r.

Definition Action (A : Type) : Type := list Sql.Invoice -> Run A.

#[export] Instance Action_ret : MRet Action :=
  fun A a rows => {| outcome := JS.Normal a; table := rows; effects := [] |}.

#[export] Instance Action_bind : MBind Action :=
  fun A B k m rows =>
    let r := m rows in
    match outcome r with
    | JS.Normal a =>
      let r' := k a (table r) in
      {| outcome := outcome r'; table := table r';
         effects := effects r ++ effects r' |}
    | JS.Throw e =>
      {| outcome := JS.Throw e; table := table r; effects := effects r |}
    end.

(** [try { body } catch (error) { handler }] *)
Definition try_catch {A : Type} (body : Action A)
           (handler : JS.Thrown -> Action A) : Action A :=
  fun rows =>
    let r := body rows in
    match outcome r with
    | JS.Normal _ => r
    | JS.Throw e =>
      let r' := handler e (table r) in
      {| outcome := outcome r'; table := table r';
         effects := effects r ++ effects r' |}
    end.

(** [await sql`...`]: a failing statement throws the driver's error and
    leaves the table as it was. *)
Definition sql (drv : Sql.Driver) (st : Sql.Statement) : Action unit :=
  fun rows =>
    match Sql.fails drv st rows with
    | Some msg =>
      {| outcome := JS.Throw (JS.Error msg); table := rows;
         effects := [Query st] |}
    | None =>
      {| outcome := JS.Normal tt; table := Sql.run drv st rows;
         effects := [Query st] |}
    end.

Definition revalidatePath (path : string) : Action unit :=
  fun rows =>
    {| outcome := JS.Normal tt; table := rows; effects := [Revalidate path] |}.

(** [redirect(url)] never returns: it throws. *)
Definition redirect {A : Type} (url : string) : JS.Completion A :=
  JS.Throw (JS.NEXT_REDIRECT url).

(** ** The form schema *)

Module formSchema.

Definition id : JS.value -> Zod.ParseReturn string := Zod.string_ None.

Definition customerId : JS.value -> Zod.ParseReturn string :=
  Zod.string_ (Some "Please select a customer.").

Definition amount : JS.value -> Zod.ParseReturn JS.number :=
  Zod.coerce_number_gt JS.zero "Please enter an amount greater than $0.".

Definition status : JS.value -> Zod.ParseReturn string :=
  Zod.enum_ ["pending"; "paid"] (Some "Please select an invoice status.").

Definition date : JS.value -> Zod.ParseReturn string := Zod.string_ None.

End formSchema.

(** The object given to [safeParse], and the data a successful parse
    returns. *)
Record Fields : Type := {
  f_customerId : JS.value;
  f_amount : JS.value;
  f_status : JS.value
}.

Record Data : Type := {
  customerId : string;
  amount : JS.number;
  status : string
}.

(** [formSchema.omit({ id: true, date: true }).safeParse]: every remaining
    key is parsed, in the order of the schema, and all issues are kept. *)
Definition omit_id_date (o : Fields) : Zod.SafeParseReturn Data :=
  let c := formSchema.customerId (f_customerId o) in
  let a := formSchema.amount (f_amount o) in
  let s := formSchema.status (f_status o) in
  match c, a, s with
  | Zod.OK c', Zod.OK a', Zod.OK s' =>
    Zod.Success {| customerId := c'; amount := a'; status := s' |}
  | _, _, _ =>
    Zod.Failure (Zod.issues_at "customerId" c ++ Zod.issues_at "amount" a
                 ++ Zod.issues_at "status" s)%list
  end.

Definition createInvoiceSchema : Fields -> Zod.SafeParseReturn Data :=
  omit_id_date.
Definition updateInvoiceSchema : Fields -> Zod.SafeParseReturn Data :=
  omit_id_date.

(** ** The form state *)

Record State : Type := {
  errors : option (gmap string (list string));
  message : option string
}.

Definition message_only (m : string) : State :=
  {| errors := None; message := Some m |}.

(** ** The actions *)

(** The object both invoice actions build from the form:
    [rawCustomer?.toString()],
    [rawAmount != null ? Number(rawAmount.toString()) : undefined],
    [rawStatus?.toString()]. *)
Definition fields_of (formData : FormData.t) : Fields :=
  let rawCustomer := FormData.get formData "customerId" in
  let rawAmount := FormData.get formData "amount" in
  let rawStatus := FormData.get formData "status" in
  {| f_customerId :=
       match rawCustomer with
       | Some v => JS.Str (FormData.toString v)
       | None => JS.Undefined
       end;
     f_amount :=
       match rawAmount with
       | Some v => JS.Num (JS.Number (JS.Str (FormData.toString v)))
       | None => JS.Undefined
       end;
     f_status :=
       match rawStatus with
       | Some v => JS.Str (FormData.toString v)
       | None => JS.Undefined
       end |}.

(** [!id]: the identifier is declared a string, and nothing checks the
    argument of a server action at run time; [None] is an identifier that is
    not there. *)
Definition truthy (id : option string) : option string :=
  match id with
  | Some "" => None
  | Some i => Some i
  | None => None
  end.

Section Actions.

Variable signIn : string -> FormData.t -> JS.Completion unit.
Variable drv : Sql.Driver.

Definition authenticate (prevState : option string) (formData : FormData.t)
  : JS.Completion string :=
  match signIn "credentials" formData with
  | JS.Normal _ => JS.Normal "Success"
  | JS.Throw error =>
    match error with
    | JS.AuthError type _ =>
      if String.eqb type "CredentialsSignin"
      then JS.Normal "Invalid credentials."
      else JS.Normal "Something went wrong."
    | _ => JS.Throw error
    end
  end.

(** The [try] block of [createInvoice], on the destructured data; the block
    allows for a value that is not there. *)
Definition createInvoice_try (customerId : option string)
           (amount : option JS.number) (status : option string)
  : Action State :=
  try_catch
    (let customerIdParam := JS.nullish customerId None in
     let amountParam := JS.nullish amount None in
     let statusParam := JS.nullish status None in
     sql drv (Sql.INSERT customerIdParam amountParam statusParam);;
     revalidatePath "/invoices";;
     mret (message_only "Invoice created successfully"))
    (fun error =>
       mret (message_only
               ("Error creating invoice: " ++ JS.message_of error))).

Definition createInvoice (prevState : State) (formData : FormData.t)
  : Action State :=
  let validatedFields := createInvoiceSchema (fields_of formData) in
  match validatedFields with
  | Zod.Failure error =>
    mret {| errors := Some (Zod.flatten error);
            message := Some "Missing Fields. Failed to Create Invoice." |}
  | Zod.Success data =>
    createInvoice_try (Some (customerId data)) (Some (amount data))
                      (Some (status data))
  end.

(** The statement part of [updateInvoice], on the destructured data. *)
Definition updateInvoice_try (id : string) (customerId : option string)
           (amount : option JS.number) (status : option string)
  : Action State :=
  let customerIdParam := JS.nullish customerId None in
  let amountParam := JS.nullish amount None in
  let statusParam := JS.nullish status None in
  try_catch
    (sql drv (Sql.UPDATE customerIdParam amountParam statusParam id);;
     revalidatePath "/invoices";;
     mret (message_only "Invoice updated successfully"))
    (fun error =>
       mret (message_only
               ("Error updating invoice: " ++ JS.message_of error))).

Definition updateInvoice (id : option string) (prevState : State)
           (formData : FormData.t) : Action State :=
  match truthy id with
  | None => mret (message_only "Invoice ID is required.")
  | Some id =>
    let validatedFields := updateInvoiceSchema (fields_of formData) in
    match validatedFields with
    | Zod.Failure error =>
      mret {| errors := Some (Zod.flatten error);
              message := Some "Missing fields. Failed to update invoice." |}
    | Zod.Success data =>
      updateInvoice_try id (Some (customerId data)) (Some (amount data))
                        (Some (status data))
    end
  end.

Definition deleteInvoice (id : option string) : Action State :=
  match truthy id with
  | None => mret (message_only "Invoice ID is required.")
  | Some id =>
    try_catch
      (sql drv (Sql.DELETE id);;
       revalidatePath "/invoices";;
       mret (message_only "Invoice deleted successfully"))
      (fun error =>
         mret (message_only
                 ("Error deleting invoice: " ++ JS.message_of error)))
  end.

End Actions.

(** ** The dashboard layout *)

(** What [Layout] returns: the two element kinds it writes, and the
    children it is given. *)
#[local] Set Warnings "-register-all".
Inductive ReactNode (C : Type) : Type :=
| div (className : string) (children : list (ReactNode C))
| SideNav
| Children (c : C).
Arguments div {C} className children.
Arguments SideNav {C}.
Arguments Children {C} c.

Section Layout.

Variables Session C : Type.

(** [auth] is what [await auth()] gives: a session or [null]. *)
Definition Layout (auth : option Session) (children : C)
  : JS.Completion (ReactNode C) :=
  let session := auth in
  match session with
  | None => redirect "/login"
  | Some _ =>
    JS.Normal
      (div "flex h-screen flex-col md:flex-row md:overflow-hidden"
         [ div "w-full flex-none md:w-64" [SideNav];
           div "grow p-6 md:overflow-y-auto md:p-12" [Children children] ])
  end.

End Layout.

(** The children a tree shows, from left to right. *)
Fixpoint rendered {C : Type} (n : ReactNode C) : list C :=
  match n with
  | div _ children => List.flat_map rendered children
  | SideNav => []
  | Children c => [c]
  end.

(** ** Concrete inputs *)

Module Samples.

Definition form (customer amount status : string) : FormData.t :=
  [ ("customerId", FormData.EntryString customer);
    ("amount", FormData.EntryString amount);
    ("status", FormData.EntryString status) ].

(** The form of a paid invoice of 49.99 for customer cust-1. *)
Definition paid_49_99 : FormData.t := form "cust-1" "49.99" "paid".

(** A form on which no status was chosen. *)
Definition no_status : FormData.t :=
  [ ("customerId", FormData.EntryString "cust-1");
    ("amount", FormData.EntryString "49.99") ].

(** The state a form starts from. *)
Definition initialState : State := {| errors := Some ∅; message := None |}.

(** A storage on which every statement goes through. *)
Definition up : Sql.Driver :=
  {| Sql.fails := fun _ _ => None;
     Sql.new_id := fun rows => "inv-new";
     Sql.now := 1700000000 |}.

(** A storage that cannot be reached. *)
Definition down : Sql.Driver :=
  {| Sql.fails := fun _ _ => Some "connection refused";
     Sql.new_id := fun rows => "inv-new";
     Sql.now := 1700000000 |}.

Definition inv1 : Sql.Invoice :=
  {| Sql.id := "inv-1"; Sql.customer_id := Some "cust-7";
     Sql.amount := Some (JS.of_Z 20); Sql.status := Some "pending";
     Sql.date := 1600000000 |}.

Definition inv2 : Sql.Invoice :=
  {| Sql.id := "inv-2"; Sql.customer_id := Some "cust-8";
     Sql.amount := Some (JS.of_Z 5); Sql.status := Some "paid";
     Sql.date := 1600000500 |}.

(** The number written 49.99: the binary64 value nearest to 4999/100. *)
Definition n49_99 : JS.number := S754_finite false 7035467042882847 (-47).

End Samples.

(** ** Reading a result *)

(** The entry of [errors] under a field, when the action returned a state
    that has one. *)
Definition field_errors (r : Run State) (field : string)
  : option (list string) :=
  match outcome r with
  | JS.Normal st =>
    match errors st with
    | Some fieldErrors => fieldErrors !! field
    | None => None
    end
  | JS.Throw _ => None
  end.

(** The action made no call at all and left the table alone. *)
Definition untouched (r : Run State) (rows : list Sql.Invoice) : Prop :=
  effects r = [] /\ table r = rows.

(** The messages of the issues under a key, in order. *)
Definition messages_at (key : string) (error : list Zod.Issue) : list string :=
  map Zod.message (List.filter (fun i => String.eqb (Zod.path i) key) error).

(** The amount of a form is missing, or [Number] of its text is NaN (the
    text is not a numeric literal) or is [<= 0]. *)
Definition amount_rejected (formData : FormData.t) : Prop :=
  match FormData.get formData "amount" with
  | None => True
  | Some v =>
    let n := JS.StringToNumber (FormData.toString v) in
    JS.isNaN n = true \/ JS.le n JS.zero = true
  end.

(** The result carries an [errors] entry for the field. *)
Definition reports (r : Run State) (field : string) : Prop :=
  exists msgs, field_errors r field = Some msgs /\ msgs <> [].

(** The amount a statement binds. *)
Definition bound_amount (st : Sql.Statement) : option JS.number :=
  match st with
  | Sql.INSERT _ a _ => a
  | Sql.UPDATE _ a _ _ => a
  | Sql.DELETE _ => None
  end.

(** Following the words of the specification, not the source: an amount in
    minor units (cents) is a hundred times the decimal amount. *)
Definition minor_units (x : JS.number) : JS.number := JS.mul x (JS.of_Z 100).

(** The row an UPDATE leaves in place of a row it targets. *)
Definition merged (c : option string) (a : option JS.number)
           (s : option string) (r : Sql.Invoice) : Sql.Invoice :=
  {| Sql.id := Sql.id r;
     Sql.customer_id := Sql.COALESCE c (Sql.customer_id r);
     Sql.amount := Sql.COALESCE a (Sql.amount r);
     Sql.status := Sql.COALESCE s (Sql.status r);
     Sql.date := Sql.date r |}.

(** The status of a form is missing, or its text is neither of the two
    enumerated values. *)
Definition status_rejected (formData : FormData.t) : Prop :=
  match FormData.get formData "status" with
  | None => True
  | Some v =>
    FormData.toString v <> "pending" /\ FormData.toString v <> "paid"
  end.

(** The message the schema records for a rejected status: the default text
    for a missing value, and the default text for a value outside the
    enumeration. *)
Definition status_message (formData : FormData.t) : string :=
  match FormData.get formData "status" with
  | None => "Required"
  | Some v =>
    "Invalid enum value. Expected 'pending' | 'paid', received '"
    ++ FormData.toString v ++ "'"
  end.

(** A [signIn] that ends, as after a successful sign-in, in a redirect. *)
Definition signIn_redirecting (provider : string) (formData : FormData.t)
  : JS.Completion unit :=
  redirect "/dashboard".

(** The form of [Samples.paid_49_99] with an id and a date put in front and
    a second amount at the end. *)
Definition crowded_form : FormData.t :=
  ("date", FormData.EntryString "1999-01-01")
    :: ("id", FormData.EntryString "inv-2")
    :: Samples.paid_49_99 ++ [("amount", FormData.EntryString "-1")].

(** The customer of a form is missing. *)
Definition customerId_missing (formData : FormData.t) : Prop :=
  FormData.get formData "customerId" = None.

(** The schema rejects some field of the form. *)
Definition form_rejected (formData : FormData.t) : Prop :=
  customerId_missing formData \/ amount_rejected formData
  \/ status_rejected formData.

(** The messages a field parse leaves. *)
Definition issue_messages {A : Type} (r : Zod.ParseReturn A) : list string :=
  match r with Zod.OK _ => [] | Zod.INVALID l => map snd l end.

(** A row as the schema lets it through: a customer, an amount greater than
    zero and one of the two statuses. *)
Definition valid_row (r : Sql.Invoice) : Prop :=
  Sql.customer_id r <> None /\
  (exists a, Sql.amount r = Some a /\ JS.gt a JS.zero = true) /\
  (Sql.status r = Some "pending" \/ Sql.status r = Some "paid").

(** How a run of an invoice action may touch the storage: not at all; by
    one statement that fails, the table staying as it was; or by one
    statement that goes through, followed by the revalidation of
    /invoices. *)
Definition disciplined (drv : Sql.Driver) (rows : list Sql.Invoice)
           (r : Run State) : Prop :=
  (effects r = [] /\ table r = rows) \/
  (exists st msg,
      Sql.fails drv st rows = Some msg /\
      effects r = [Query st] /\ table r = rows) \/
  (exists st,
      Sql.fails drv st rows = None /\
      effects r = [Query st; Revalidate "/invoices"] /\
      table r = Sql.run drv st rows).

(** The message of the state an action returned. *)
Definition returned_message (r : Run State) : option string :=
  match outcome r with
  | JS.Normal st => message st
  | JS.Throw _ => None
  end.

(** ** Facts about numbers *)

Lemma not_le_zero_gt (n : JS.number) :
  JS.isNaN n = false -> JS.le n JS.zero = false -> JS.gt n JS.zero = true.
Proof.
  destruct n as [s | s | | s m e]; try destruct s; cbn; congruence.
Qed.

Lemma gt_zero_not_le (n : JS.number) :
  JS.gt n JS.zero = true -> JS.isNaN n = false /\ JS.le n JS.zero = false.
Proof.
  destruct n as [s | s | | s m e]; try destruct s; cbn; intuition congruence.
Qed.

(** [Number] on some texts a form can carry. *)
Example Number_of_decimal_text :
  JS.StringToNumber "49.99" = S754_finite false 7035467042882847 (-47) /\
  JS.StringToNumber "0.1" = S754_finite false 7205759403792794 (-56) /\
  JS.StringToNumber " 12 " = JS.of_Z 12 /\
  JS.StringToNumber "1e3" = JS.of_Z 1000 /\
  JS.StringToNumber "0x1F" = JS.of_Z 31.
Proof. repeat split; reflexivity. Qed.

Example Number_of_other_text :
  JS.StringToNumber "" = S754_zero false /\
  JS.StringToNumber "-0" = S754_zero true /\
  JS.StringToNumber "abc" = JS.NaN /\
  JS.StringToNumber "12px" = JS.NaN /\
  JS.StringToNumber "[object File]" = JS.NaN /\
  JS.StringToNumber "-Infinity" = S754_infinity true /\
  JS.StringToNumber "1e400" = JS.Infinity /\
  JS.StringToNumber "1e-400" = S754_zero false.
Proof. repeat split; reflexivity. Qed.

Example isInteger_examples :
  JS.isInteger (JS.of_Z 1) = true /\
  JS.isInteger (JS.of_Z 4999) = true /\
  JS.isInteger (JS.StringToNumber "1e300") = true /\
  JS.isInteger (JS.StringToNumber "-0") = true /\
  JS.isInteger (JS.StringToNumber "49.99") = false /\
  JS.isInteger (JS.StringToNumber "0.5") = false /\
  JS.isInteger JS.Infinity = false /\
  JS.isInteger JS.NaN = false.
Proof. repeat split; reflexivity. Qed.

(** ** Facts about [flatten] *)

Lemma messages_at_app key e1 e2 :
  messages_at key (e1 ++ e2) = (messages_at key e1 ++ messages_at key e2)%list.
Proof.
  unfold messages_at. now rewrite List.filter_app, List.map_app.
Qed.

Lemma messages_at_issues {A : Type} key key' (r : Zod.ParseReturn A) :
  messages_at key (Zod.issues_at key' r) =
  if String.eqb key' key then
    match r with Zod.OK _ => [] | Zod.INVALID l => map snd l end
  else [].
Proof.
  unfold messages_at. destruct r as [a | l]; cbn.
  - now destruct (String.eqb key' key).
  - induction l as [| i l IH]; cbn.
    + now destruct (String.eqb key' key).
    + destruct (String.eqb key' key) eqn:E; cbn; [now f_equal | exact IH].
Qed.

Lemma flatten_from key (error : list Zod.Issue) :
  forall m : gmap string (list string),
    foldl (fun m i =>
             <[Zod.path i :=
                 (default [] (m !! Zod.path i) ++ [Zod.message i])%list]> m)
          m error !! key =
    match messages_at key error with
    | [] => m !! key
    | l => Some (default [] (m !! key) ++ l)%list
    end.
Proof.
  induction error as [| i error IH]; intros m; [reflexivity |].
  cbn [foldl]. rewrite IH. unfold messages_at at 2. cbn [List.filter].
  destruct (String.eqb_spec (Zod.path i) key) as [-> | Hne].
  - rewrite lookup_insert_eq. cbn [map default].
    fold (messages_at key error).
    destruct (messages_at key error) as [| x l]; [reflexivity |].
    unfold id. now rewrite <- app_assoc.
  - rewrite lookup_insert_ne by exact Hne.
    fold (messages_at key error). reflexivity.
Qed.

Lemma flatten_lookup key (error : list Zod.Issue) :
  Zod.flatten error !! key =
  match messages_at key error with [] => None | l => Some l end.
Proof.
  unfold Zod.flatten. rewrite flatten_from, lookup_empty.
  now destruct (messages_at key error).
Qed.

(** ** Facts about the schema *)

Lemma amount_parse (v : JS.value) :
  formSchema.amount v =
  if JS.isNaN (JS.Number v)
  then Zod.INVALID [(Zod.invalid_type, "Expected number, received nan")]
  else if JS.le (JS.Number v) JS.zero
       then Zod.INVALID
              [(Zod.too_small, "Please enter an amount greater than $0.")]
       else Zod.OK (JS.Number v).
Proof.
  unfold formSchema.amount, Zod.coerce_number_gt, Zod.getParsedType.
  now destruct (JS.isNaN (JS.Number v)).
Qed.

Lemma customerId_parse (v : JS.value) :
  formSchema.customerId v =
  match v with
  | JS.Str s => Zod.OK s
  | JS.Undefined => Zod.INVALID [(Zod.invalid_type, "Required")]
  | _ => Zod.INVALID [(Zod.invalid_type, "Please select a customer.")]
  end.
Proof. now destruct v. Qed.

Lemma status_parse (v : JS.value) :
  formSchema.status v =
  match v with
  | JS.Str s =>
    if existsb (String.eqb s) ["pending"; "paid"] then Zod.OK s
    else
      Zod.INVALID
        [(Zod.invalid_enum_value,
          "Invalid enum value. Expected 'pending' | 'paid', received '"
          ++ s ++ "'")]
  | JS.Undefined => Zod.INVALID [(Zod.invalid_type, "Required")]
  | _ =>
    Zod.INVALID [(Zod.invalid_type, "Please select an invoice status.")]
  end.
Proof. now destruct v. Qed.

(** One issue on a key makes the parse fail, with that issue's message alone
    under the key. *)
Lemma omit_id_date_amount_issue (o : Fields) c m :
  formSchema.amount (f_amount o) = Zod.INVALID [(c, m)] ->
  exists error,
    omit_id_date o = Zod.Failure error /\
    Zod.flatten error !! "amount" = Some [m].
Proof.
  intros Ha. unfold omit_id_date. rewrite Ha.
  exists (Zod.issues_at "customerId" (formSchema.customerId (f_customerId o))
          ++ Zod.issues_at "amount" (@Zod.INVALID JS.number [(c, m)])
          ++ Zod.issues_at "status" (formSchema.status (f_status o)))%list.
  split.
  - destruct (formSchema.customerId (f_customerId o)); reflexivity.
  - rewrite flatten_lookup, !messages_at_app, !messages_at_issues.
    reflexivity.
Qed.

Lemma omit_id_date_status_issue (o : Fields) c m :
  formSchema.status (f_status o) = Zod.INVALID [(c, m)] ->
  exists error,
    omit_id_date o = Zod.Failure error /\
    Zod.flatten error !! "status" = Some [m].
Proof.
  intros Hs. unfold omit_id_date. rewrite Hs.
  exists (Zod.issues_at "customerId" (formSchema.customerId (f_customerId o))
          ++ Zod.issues_at "amount" (formSchema.amount (f_amount o))
          ++ Zod.issues_at "status" (@Zod.INVALID string [(c, m)]))%list.
  split.
  - destruct (formSchema.customerId (f_customerId o)),
             (formSchema.amount (f_amount o)); reflexivity.
  - rewrite flatten_lookup, !messages_at_app, !messages_at_issues.
    reflexivity.
Qed.

(** What a successful parse of a form says about the form. *)
Lemma omit_id_date_success (formData : FormData.t) (data : Data) :
  omit_id_date (fields_of formData) = Zod.Success data ->
  exists vc va vs,
    FormData.get formData "customerId" = Some vc /\
    FormData.get formData "amount" = Some va /\
    FormData.get formData "status" = Some vs /\
    customerId data = FormData.toString vc /\
    amount data = JS.StringToNumber (FormData.toString va) /\
    status data = FormData.toString vs /\
    JS.gt (amount data) JS.zero = true /\
    (status data = "pending" \/ status data = "paid").
Proof.
  unfold omit_id_date, fields_of. cbn [f_customerId f_amount f_status].
  rewrite customerId_parse, amount_parse, status_parse.
  destruct (FormData.get formData "customerId") as [vc |]; [| discriminate].
  destruct (FormData.get formData "amount") as [va |]; [| discriminate].
  cbn [JS.Number].
  destruct (JS.isNaN _) eqn:Hnan; [discriminate |].
  destruct (JS.le _ _) eqn:Hle; [discriminate |].
  destruct (FormData.get formData "status") as [vs |]; [| discriminate].
  destruct (existsb _ _) eqn:Hin; [| discriminate].
  intros [= <-]. exists vc, va, vs. cbn [customerId amount status].
  repeat split; try reflexivity.
  - now apply not_le_zero_gt.
  - cbn [existsb] in Hin.
    destruct (String.eqb_spec (FormData.toString vs) "pending") as [-> | _];
      [now left |].
    destruct (String.eqb_spec (FormData.toString vs) "paid") as [-> | _];
      [now right | discriminate].
Qed.

(** ** Facts about the actions *)

Section ActionFacts.

Variable drv : Sql.Driver.

Lemma createInvoice_try_run c a s rows :
  createInvoice_try drv c a s rows =
  match Sql.fails drv (Sql.INSERT c a s) rows with
  | Some msg =>
    {| outcome := JS.Normal (message_only ("Error creating invoice: " ++ msg));
       table := rows;
       effects := [Query (Sql.INSERT c a s)] |}
  | None =>
    {| outcome := JS.Normal (message_only "Invoice created successfully");
       table := Sql.run drv (Sql.INSERT c a s) rows;
       effects := [Query (Sql.INSERT c a s); Revalidate "/invoices"] |}
  end.
Proof.
  destruct c, a, s;
    unfold createInvoice_try, try_catch, mbind, Action_bind, sql, JS.nullish;
    destruct (Sql.fails drv _ rows); reflexivity.
Qed.

Lemma updateInvoice_try_run i c a s rows :
  updateInvoice_try drv i c a s rows =
  match Sql.fails drv (Sql.UPDATE c a s i) rows with
  | Some msg =>
    {| outcome := JS.Normal (message_only ("Error updating invoice: " ++ msg));
       table := rows;
       effects := [Query (Sql.UPDATE c a s i)] |}
  | None =>
    {| outcome := JS.Normal (message_only "Invoice updated successfully");
       table := Sql.run drv (Sql.UPDATE c a s i) rows;
       effects := [Query (Sql.UPDATE c a s i); Revalidate "/invoices"] |}
  end.
Proof.
  destruct c, a, s;
    unfold updateInvoice_try, try_catch, mbind, Action_bind, sql, JS.nullish;
    destruct (Sql.fails drv _ rows); reflexivity.
Qed.

Lemma deleteInvoice_run id i rows :
  truthy id = Some i ->
  deleteInvoice drv id rows =
  match Sql.fails drv (Sql.DELETE i) rows with
  | Some msg =>
    {| outcome := JS.Normal (message_only ("Error deleting invoice: " ++ msg));
       table := rows;
       effects := [Query (Sql.DELETE i)] |}
  | None =>
    {| outcome := JS.Normal (message_only "Invoice deleted successfully");
       table := Sql.run drv (Sql.DELETE i) rows;
       effects := [Query (Sql.DELETE i); Revalidate "/invoices"] |}
  end.
Proof.
  intros Hid.
  unfold deleteInvoice, try_catch, mbind, Action_bind, sql. rewrite Hid.
  destruct (Sql.fails drv _ rows); reflexivity.
Qed.

Lemma createInvoice_invalid prevState formData error rows :
  createInvoiceSchema (fields_of formData) = Zod.Failure error ->
  createInvoice drv prevState formData rows =
  {| outcome :=
       JS.Normal
         {| errors := Some (Zod.flatten error);
            message := Some "Missing Fields. Failed to Create Invoice." |};
     table := rows; effects := [] |}.
Proof. intros H. unfold createInvoice. now rewrite H. Qed.

Lemma createInvoice_valid prevState formData data rows :
  createInvoiceSchema (fields_of formData) = Zod.Success data ->
  createInvoice drv prevState formData rows =
  createInvoice_try drv (Some (customerId data)) (Some (amount data))
                    (Some (status data)) rows.
Proof. intros H. unfold createInvoice. now rewrite H. Qed.

Lemma updateInvoice_invalid id i prevState formData error rows :
  truthy id = Some i ->
  updateInvoiceSchema (fields_of formData) = Zod.Failure error ->
  updateInvoice drv id prevState formData rows =
  {| outcome :=
       JS.Normal
         {| errors := Some (Zod.flatten error);
            message := Some "Missing fields. Failed to update invoice." |};
     table := rows; effects := [] |}.
Proof. intros Hid H. unfold updateInvoice. now rewrite Hid, H. Qed.

Lemma updateInvoice_valid id i prevState formData data rows :
  truthy id = Some i ->
  updateInvoiceSchema (fields_of formData) = Zod.Success data ->
  updateInvoice drv id prevState formData rows =
  updateInvoice_try drv i (Some (customerId data)) (Some (amount data))
                    (Some (status data)) rows.
Proof. intros Hid H. unfold updateInvoice. now rewrite Hid, H. Qed.

Lemma updateInvoice_no_id id prevState formData rows :
  truthy id = None ->
  updateInvoice drv id prevState formData rows =
  {| outcome := JS.Normal (message_only "Invoice ID is required.");
     table := rows; effects := [] |}.
Proof. intros Hid. unfold updateInvoice. now rewrite Hid. Qed.

Lemma deleteInvoice_no_id id rows :
  truthy id = None ->
  deleteInvoice drv id rows =
  {| outcome := JS.Normal (message_only "Invoice ID is required.");
     table := rows; effects := [] |}.
Proof. intros Hid. unfold deleteInvoice. now rewrite Hid. Qed.

End ActionFacts.

(** ** Validation of the amount *)

Lemma amount_rejected_issue (formData : FormData.t) :
  amount_rejected formData ->
  exists c m,
    formSchema.amount (f_amount (fields_of formData)) = Zod.INVALID [(c, m)].
Proof.
  unfold amount_rejected, fields_of. cbn [f_amount]. rewrite amount_parse.
  destruct (FormData.get formData "amount") as [v |]; cbn [JS.Number].
  - intros [-> | Hle]; [eauto |].
    destruct (JS.isNaN _); [eauto |]. rewrite Hle. eauto.
  - intros _. cbn. eauto.
Qed.

(** The forms whose amount the schema accepts are exactly those whose
    amount is not rejected. *)
Lemma amount_accepted_iff (formData : FormData.t) :
  (exists n, formSchema.amount (f_amount (fields_of formData)) = Zod.OK n) <->
  ~ amount_rejected formData.
Proof.
  unfold amount_rejected, fields_of. cbn [f_amount]. rewrite amount_parse.
  destruct (FormData.get formData "amount") as [v |]; cbn [JS.Number].
  - destruct (JS.isNaN _); [| destruct (JS.le _ _)].
    + split; [intros [n Hn]; discriminate | intros H; destruct H; auto].
    + split; [intros [n Hn]; discriminate | intros H; destruct H; auto].
    + split; [intros _ [H | H]; discriminate | eauto].
  - cbn. split; [intros [n Hn]; discriminate | intros H; destruct H; exact I].
Qed.

Lemma rejected_amount_fails_parse (formData : FormData.t) :
  amount_rejected formData ->
  exists error m,
    omit_id_date (fields_of formData) = Zod.Failure error /\
    Zod.flatten error !! "amount" = Some [m].
Proof.
  intros H. destruct (amount_rejected_issue _ H) as (c & m & Hm).
  destruct (omit_id_date_amount_issue _ _ _ Hm) as (error & He & Hl).
  eauto.
Qed.

(** C1, amended: for every form whose amount is missing, is not numeric, or
    coerces to a value [<= 0], [createInvoice] returns a result with an
    [errors.amount] entry and makes no call to the storage, and so does
    [updateInvoice] when it is given an identifier that is not empty. *)
Theorem rejected_amount_is_reported
        drv (prevState : State) (formData : FormData.t) rows :
  amount_rejected formData ->
  (reports (createInvoice drv prevState formData rows) "amount" /\
   untouched (createInvoice drv prevState formData rows) rows) /\
  (forall id i,
      truthy id = Some i ->
      reports (updateInvoice drv id prevState formData rows) "amount" /\
      untouched (updateInvoice drv id prevState formData rows) rows).
Proof.
  intros H. destruct (rejected_amount_fails_parse _ H) as (error & m & He & Hl).
  split.
  - rewrite (createInvoice_invalid drv prevState formData error rows He).
    split; [| now split].
    exists [m]. unfold field_errors. cbn. now rewrite Hl.
  - intros id i Hid.
    rewrite (updateInvoice_invalid drv id i prevState formData error rows Hid He).
    split; [| now split].
    exists [m]. unfold field_errors. cbn. now rewrite Hl.
Qed.

Lemma rejected_amount_is_reported_witness :
  amount_rejected (Samples.form "cust-1" "-5" "paid") /\
  (reports (createInvoice Samples.up Samples.initialState
              (Samples.form "cust-1" "-5" "paid") [Samples.inv1]) "amount" /\
   untouched (createInvoice Samples.up Samples.initialState
                (Samples.form "cust-1" "-5" "paid") [Samples.inv1])
             [Samples.inv1]) /\
  (reports (updateInvoice Samples.up (Some "inv-1") Samples.initialState
              (Samples.form "cust-1" "-5" "paid") [Samples.inv1]) "amount" /\
   untouched (updateInvoice Samples.up (Some "inv-1") Samples.initialState
                (Samples.form "cust-1" "-5" "paid") [Samples.inv1])
             [Samples.inv1]).
Proof.
  assert (Hr : amount_rejected (Samples.form "cust-1" "-5" "paid"))
    by (right; reflexivity).
  split; [exact Hr |].
  destruct (rejected_amount_is_reported Samples.up Samples.initialState
              (Samples.form "cust-1" "-5" "paid") [Samples.inv1] Hr)
    as [Hc Hu].
  split; [exact Hc |].
  exact (Hu (Some "inv-1") "inv-1" eq_refl).
Defined.

(** C1 as it is written fails for [updateInvoice] on an empty identifier:
    the amount 0 is rejected by the schema, but the action returns the
    identifier message before it validates, with no [errors] at all. *)
Lemma rejected_amount_with_empty_id :
  amount_rejected (Samples.form "cust-1" "0" "paid") /\
  updateInvoice Samples.up (Some "") Samples.initialState
                (Samples.form "cust-1" "0" "paid") [Samples.inv1] =
  {| outcome := JS.Normal {| errors := None;
                             message := Some "Invoice ID is required." |};
     table := [Samples.inv1]; effects := [] |} /\
  ~ reports (updateInvoice Samples.up (Some "") Samples.initialState
               (Samples.form "cust-1" "0" "paid") [Samples.inv1]) "amount".
Proof.
  split; [right; reflexivity |]. split; [reflexivity |].
  intros (msgs & Hm & _). discriminate Hm.
Qed.

(** ** What the statements bind *)

Ltac effects_inv H :=
  repeat (apply elem_of_cons in H as [H | H]; [try discriminate H |]);
  try (apply elem_of_nil in H; contradiction).

Section Statements.

Variable drv : Sql.Driver.

(** The only statement [createInvoice] sends is the INSERT of the parsed
    data. *)
Lemma createInvoice_query prevState formData rows st :
  Query st ∈ effects (createInvoice drv prevState formData rows) ->
  exists data,
    createInvoiceSchema (fields_of formData) = Zod.Success data /\
    st = Sql.INSERT (Some (customerId data)) (Some (amount data))
                    (Some (status data)).
Proof.
  intros H.
  destruct (createInvoiceSchema (fields_of formData)) as [data | error] eqn:E.
  - rewrite (createInvoice_valid drv prevState formData data rows E),
      createInvoice_try_run in H.
    exists data. split; [reflexivity |].
    destruct (Sql.fails drv _ rows); cbn [effects] in H; effects_inv H;
      now injection H.
  - rewrite (createInvoice_invalid drv prevState formData error rows E) in H.
    cbn [effects] in H. effects_inv H.
Qed.

(** The only statement [updateInvoice] sends is the UPDATE of the parsed
    data, under the identifier it was given. *)
Lemma updateInvoice_query id prevState formData rows st :
  Query st ∈ effects (updateInvoice drv id prevState formData rows) ->
  exists i data,
    truthy id = Some i /\
    updateInvoiceSchema (fields_of formData) = Zod.Success data /\
    st = Sql.UPDATE (Some (customerId data)) (Some (amount data))
                    (Some (status data)) i.
Proof.
  intros H. destruct (truthy id) as [i |] eqn:Hid.
  - destruct (updateInvoiceSchema (fields_of formData)) as [data | error] eqn:E.
    + rewrite (updateInvoice_valid drv id i prevState formData data rows Hid E),
        updateInvoice_try_run in H.
      exists i, data. do 2 (split; [reflexivity |]).
      destruct (Sql.fails drv _ rows); cbn [effects] in H; effects_inv H;
        now injection H.
    + rewrite (updateInvoice_invalid drv id i prevState formData error rows Hid E)
        in H.
      cbn [effects] in H. effects_inv H.
  - rewrite (updateInvoice_no_id drv id prevState formData rows Hid) in H.
    cbn [effects] in H. effects_inv H.
Qed.

End Statements.

(** C2, amended: for every input that passes validation, the amount bound
    into the INSERT of [createInvoice] and into the UPDATE of
    [updateInvoice] is the number the caller's amount text coerces to, as it
    is and greater than zero; it is not converted to minor units. *)
Theorem bound_amount_is_the_amount_given
        drv id (prevState : State) (formData : FormData.t) rows st :
  Query st ∈ effects (createInvoice drv prevState formData rows) \/
  Query st ∈ effects (updateInvoice drv id prevState formData rows) ->
  exists v,
    FormData.get formData "amount" = Some v /\
    bound_amount st = Some (JS.StringToNumber (FormData.toString v)) /\
    JS.gt (JS.StringToNumber (FormData.toString v)) JS.zero = true.
Proof.
  intros [H | H].
  - apply createInvoice_query in H as (data & E & ->).
    apply omit_id_date_success in E
      as (vc & va & vs & _ & Ha & _ & _ & Hn & _ & Hgt & _).
    exists va. cbn [bound_amount]. rewrite <- Hn. auto.
  - apply updateInvoice_query in H as (i & data & _ & E & ->).
    apply omit_id_date_success in E
      as (vc & va & vs & _ & Ha & _ & _ & Hn & _ & Hgt & _).
    exists va. cbn [bound_amount]. rewrite <- Hn. auto.
Qed.

Lemma bound_amount_is_the_amount_given_witness :
  (Query (Sql.INSERT (Some "cust-1") (Some Samples.n49_99) (Some "paid"))
     ∈ effects (createInvoice Samples.up Samples.initialState
                  Samples.paid_49_99 [])
   \/ Query (Sql.INSERT (Some "cust-1") (Some Samples.n49_99) (Some "paid"))
        ∈ effects (updateInvoice Samples.up (Some "inv-1")
                     Samples.initialState Samples.paid_49_99 [])) /\
  exists v,
    FormData.get Samples.paid_49_99 "amount" = Some v /\
    bound_amount
      (Sql.INSERT (Some "cust-1") (Some Samples.n49_99) (Some "paid")) =
    Some (JS.StringToNumber (FormData.toString v)) /\
    JS.gt (JS.StringToNumber (FormData.toString v)) JS.zero = true.
Proof.
  assert (H : Query (Sql.INSERT (Some "cust-1") (Some Samples.n49_99)
                                (Some "paid"))
                ∈ effects (createInvoice Samples.up Samples.initialState
                             Samples.paid_49_99 [])) by apply list_elem_of_here.
  split; [left; exact H |].
  exact (bound_amount_is_the_amount_given Samples.up (Some "inv-1")
           Samples.initialState Samples.paid_49_99 [] _ (or_introl H)).
Defined.

(** C2 as it is written fails: on the form with amount 49.99 the INSERT
    binds 49.99, which is not an integer, and not 4999, its value in minor
    units. *)
Lemma amount_is_not_bound_in_minor_units :
  effects (createInvoice Samples.up Samples.initialState
             Samples.paid_49_99 []) =
  [ Query (Sql.INSERT (Some "cust-1") (Some Samples.n49_99) (Some "paid"));
    Revalidate "/invoices" ] /\
  JS.StringToNumber "49.99" = Samples.n49_99 /\
  minor_units Samples.n49_99 = JS.of_Z 4999 /\
  Samples.n49_99 <> minor_units Samples.n49_99 /\
  JS.isInteger Samples.n49_99 = false.
Proof.
  repeat split; try reflexivity. discriminate.
Qed.

(** ** The UPDATE statement on the table *)

Lemma run_UPDATE_lookup drv c a s i (rows : list Sql.Invoice) (k : nat) :
  Sql.run drv (Sql.UPDATE c a s i) rows !! k =
  (fun r => if String.eqb (Sql.id r) i then merged c a s r else r)
    <$> rows !! k.
Proof.
  cbn [Sql.run]. revert k.
  induction rows as [| r rows IH]; intros [| k]; cbn; auto.
Qed.

Lemma run_UPDATE_length drv c a s i (rows : list Sql.Invoice) :
  length (Sql.run drv (Sql.UPDATE c a s i) rows) = length rows.
Proof. cbn [Sql.run]. apply length_map. Qed.

Lemma COALESCE_None {A : Type} (old : option A) : Sql.COALESCE None old = old.
Proof. reflexivity. Qed.

Lemma COALESCE_Some {A : Type} (v : A) (old : option A) :
  Sql.COALESCE (Some v) old = Some v.
Proof. reflexivity. Qed.

(** The statement part of [updateInvoice] on its own, run on values of
    which some may be absent: when the statement goes through, a row with
    the given identifier keeps the stored value of every field whose value
    is absent and takes every value that is present; its [id] and [date]
    stay, and a row with another identifier is left as it was. *)
Lemma update_coalesces_each_field
        drv (i : string) (c : option string) (a : option JS.number)
        (s : option string) (rows : list Sql.Invoice) (k : nat)
        (r : Sql.Invoice) :
  Sql.fails drv (Sql.UPDATE c a s i) rows = None ->
  rows !! k = Some r ->
  exists r',
    table (updateInvoice_try drv i c a s rows) !! k = Some r' /\
    Sql.id r' = Sql.id r /\ Sql.date r' = Sql.date r /\
    (Sql.id r <> i -> r' = r) /\
    (Sql.id r = i ->
     (c = None -> Sql.customer_id r' = Sql.customer_id r) /\
     (forall v, c = Some v -> Sql.customer_id r' = Some v) /\
     (a = None -> Sql.amount r' = Sql.amount r) /\
     (forall v, a = Some v -> Sql.amount r' = Some v) /\
     (s = None -> Sql.status r' = Sql.status r) /\
     (forall v, s = Some v -> Sql.status r' = Some v)).
Proof.
  intros Hok Hk. rewrite updateInvoice_try_run, Hok. cbn [table].
  rewrite run_UPDATE_lookup, Hk. cbn [fmap option_fmap option_map].
  destruct (String.eqb_spec (Sql.id r) i) as [Heq | Hne].
  - exists (merged c a s r). split; [reflexivity |].
    do 2 (split; [reflexivity |]). split; [intros Hn; contradiction |].
    intros _. cbn [merged Sql.customer_id Sql.amount Sql.status].
    repeat split; intros; subst; reflexivity.
  - exists r. split; [reflexivity |]. do 2 (split; [reflexivity |]).
    split; [reflexivity |]. intros Heq. contradiction.
Qed.

Lemma update_coalesces_each_field_witness :
  Sql.fails Samples.up
            (Sql.UPDATE None (Some Samples.n49_99) None "inv-1")
            [Samples.inv1; Samples.inv2] = None /\
  [Samples.inv1; Samples.inv2] !! 0%nat = Some Samples.inv1 /\
  exists r',
    table (updateInvoice_try Samples.up "inv-1" None (Some Samples.n49_99)
             None [Samples.inv1; Samples.inv2]) !! 0%nat = Some r' /\
    Sql.id r' = Sql.id Samples.inv1 /\
    Sql.date r' = Sql.date Samples.inv1 /\
    (Sql.id Samples.inv1 <> "inv-1" -> r' = Samples.inv1) /\
    (Sql.id Samples.inv1 = "inv-1" ->
     (@None string = None ->
      Sql.customer_id r' = Sql.customer_id Samples.inv1) /\
     (forall v, @None string = Some v -> Sql.customer_id r' = Some v) /\
     (Some Samples.n49_99 = None -> Sql.amount r' = Sql.amount Samples.inv1) /\
     (forall v, Some Samples.n49_99 = Some v -> Sql.amount r' = Some v) /\
     (@None string = None -> Sql.status r' = Sql.status Samples.inv1) /\
     (forall v, @None string = Some v -> Sql.status r' = Some v)).
Proof.
  split; [reflexivity |]. split; [reflexivity |].
  exact (update_coalesces_each_field Samples.up "inv-1" None
           (Some Samples.n49_99) None [Samples.inv1; Samples.inv2] 0
           Samples.inv1 eq_refl eq_refl).
Defined.



(** C4: whenever the input of [updateInvoice] passes validation, the UPDATE
    it sends binds the three parsed values, none of them null, and a
    statement that goes through leaves every targeted row with exactly these
    three values; and no statement [updateInvoice] ever sends has a
    parameter for which COALESCE falls back on the stored value. *)
Theorem validated_update_overwrites
        drv (id : option string) (prevState : State)
        (formData : FormData.t) (rows : list Sql.Invoice) :
  (forall i data,
      truthy id = Some i ->
      updateInvoiceSchema (fields_of formData) = Zod.Success data ->
      let st := Sql.UPDATE (Some (customerId data)) (Some (amount data))
                           (Some (status data)) i in
      Query st ∈ effects (updateInvoice drv id prevState formData rows) /\
      (Sql.fails drv st rows = None ->
       forall k r,
         rows !! k = Some r -> Sql.id r = i ->
         table (updateInvoice drv id prevState formData rows) !! k =
         Some {| Sql.id := i;
                 Sql.customer_id := Some (customerId data);
                 Sql.amount := Some (amount data);
                 Sql.status := Some (status data);
                 Sql.date := Sql.date r |})) /\
  (forall st,
      Query st ∈ effects (updateInvoice drv id prevState formData rows) ->
      Sql.keeps_previous st = false).
Proof.
  split.
  - intros i data Hid E st.
    rewrite (updateInvoice_valid drv id i prevState formData data rows Hid E),
      updateInvoice_try_run.
    fold st. split.
    + destruct (Sql.fails drv st rows); apply list_elem_of_here.
    + intros Hok k r Hk Hr. rewrite Hok. cbn [table]. subst st.
      rewrite run_UPDATE_lookup, Hk. cbn [fmap option_fmap option_map].
      apply String.eqb_eq in Hr as Hb. rewrite Hb. unfold merged.
      now rewrite !COALESCE_Some, Hr.
  - intros st H.
    apply updateInvoice_query in H as (i & data & _ & _ & ->). reflexivity.
Qed.

Lemma validated_update_overwrites_witness :
  truthy (Some "inv-1") = Some "inv-1" /\
  updateInvoiceSchema (fields_of Samples.paid_49_99) =
  Zod.Success {| customerId := "cust-1"; amount := Samples.n49_99;
                 status := "paid" |} /\
  Query (Sql.UPDATE (Some "cust-1") (Some Samples.n49_99) (Some "paid")
                    "inv-1")
    ∈ effects (updateInvoice Samples.up (Some "inv-1") Samples.initialState
                 Samples.paid_49_99 [Samples.inv1; Samples.inv2]) /\
  table (updateInvoice Samples.up (Some "inv-1") Samples.initialState
           Samples.paid_49_99 [Samples.inv1; Samples.inv2]) !! 0%nat =
  Some {| Sql.id := "inv-1"; Sql.customer_id := Some "cust-1";
          Sql.amount := Some Samples.n49_99; Sql.status := Some "paid";
          Sql.date := Sql.date Samples.inv1 |} /\
  Sql.keeps_previous
    (Sql.UPDATE (Some "cust-1") (Some Samples.n49_99) (Some "paid") "inv-1") =
  false.
Proof.
  destruct (validated_update_overwrites Samples.up (Some "inv-1")
              Samples.initialState Samples.paid_49_99
              [Samples.inv1; Samples.inv2]) as [Hv Hk].
  destruct (Hv "inv-1"
               {| customerId := "cust-1"; amount := Samples.n49_99;
                  status := "paid" |} eq_refl eq_refl) as [Hq Ht].
  split; [reflexivity |]. split; [reflexivity |]. split; [exact Hq |].
  split; [exact (Ht eq_refl 0%nat Samples.inv1 eq_refl eq_refl) |].
  exact (Hk _ Hq).
Defined.

(** C5: with an identifier that is empty or not there, [updateInvoice] and
    [deleteInvoice] return exactly the message that an invoice identifier is
    required, without [errors], send no statement and leave the table as it
    was. *)
Theorem missing_id_is_refused
        drv (id : option string) (prevState : State)
        (formData : FormData.t) (rows : list Sql.Invoice) :
  truthy id = None ->
  updateInvoice drv id prevState formData rows =
  {| outcome := JS.Normal {| errors := None;
                             message := Some "Invoice ID is required." |};
     table := rows; effects := [] |} /\
  deleteInvoice drv id rows =
  {| outcome := JS.Normal {| errors := None;
                             message := Some "Invoice ID is required." |};
     table := rows; effects := [] |}.
Proof.
  intros Hid. split.
  - now apply updateInvoice_no_id.
  - now apply deleteInvoice_no_id.
Qed.

Lemma missing_id_is_refused_witness :
  truthy (Some "") = None /\
  updateInvoice Samples.up (Some "") Samples.initialState Samples.paid_49_99
                [Samples.inv1] =
  {| outcome := JS.Normal {| errors := None;
                             message := Some "Invoice ID is required." |};
     table := [Samples.inv1]; effects := [] |} /\
  deleteInvoice Samples.up (Some "") [Samples.inv1] =
  {| outcome := JS.Normal {| errors := None;
                             message := Some "Invoice ID is required." |};
     table := [Samples.inv1]; effects := [] |}.
Proof.
  split; [reflexivity |].
  exact (missing_id_is_refused Samples.up (Some "") Samples.initialState
           Samples.paid_49_99 [Samples.inv1] eq_refl).
Defined.

(** [truthy] rejects exactly the empty and the absent identifier. *)
Lemma truthy_None (id : option string) :
  truthy id = None <-> id = None \/ id = Some "".
Proof.
  destruct id as [[| ch s] |]; cbn; split; intros H;
    try discriminate; auto; destruct H; discriminate.
Qed.

(** ** Failures of the storage *)

Lemma deleteInvoice_query drv id rows st :
  Query st ∈ effects (deleteInvoice drv id rows) ->
  exists i, truthy id = Some i /\ st = Sql.DELETE i.
Proof.
  intros H. destruct (truthy id) as [i |] eqn:Hid.
  - rewrite (deleteInvoice_run drv id i rows Hid) in H. exists i.
    split; [reflexivity |].
    destruct (Sql.fails drv _ rows); cbn [effects] in H; effects_inv H;
      now injection H.
  - rewrite (deleteInvoice_no_id drv id rows Hid) in H.
    cbn [effects] in H. effects_inv H.
Qed.

(** The three invoice actions always return a state: nothing they catch or
    meet is thrown on to the caller. *)
Lemma invoice_actions_return drv id prevState formData rows :
  (exists st, outcome (createInvoice drv prevState formData rows) = JS.Normal st)
  /\ (exists st,
         outcome (updateInvoice drv id prevState formData rows) = JS.Normal st)
  /\ (exists st, outcome (deleteInvoice drv id rows) = JS.Normal st).
Proof.
  split; [| split].
  - unfold createInvoice.
    destruct (createInvoiceSchema _); [| cbn; eauto].
    rewrite createInvoice_try_run. destruct (Sql.fails _ _ _); cbn; eauto.
  - unfold updateInvoice. destruct (truthy id); [| cbn; eauto].
    destruct (updateInvoiceSchema _); [| cbn; eauto].
    rewrite updateInvoice_try_run. destruct (Sql.fails _ _ _); cbn; eauto.
  - destruct (truthy id) as [i |] eqn:Hid.
    + rewrite (deleteInvoice_run drv id i rows Hid).
      destruct (Sql.fails _ _ _); cbn; eauto.
    + rewrite (deleteInvoice_no_id drv id rows Hid). cbn; eauto.
Qed.

(** C6: when the storage fails on the statement an invoice action sends,
    with some message, the action returns normally a state that has no
    [errors] and whose message is the action's prefix followed by the
    driver's message; the table is as it was and nothing is thrown. *)
Theorem storage_failure_is_reported
        drv (id : option string) (prevState : State)
        (formData : FormData.t) (rows : list Sql.Invoice)
        (st : Sql.Statement) (msg : string) :
  Sql.fails drv st rows = Some msg ->
  (Query st ∈ effects (createInvoice drv prevState formData rows) ->
   createInvoice drv prevState formData rows =
   {| outcome := JS.Normal {| errors := None;
                              message := Some ("Error creating invoice: "
                                               ++ msg) |};
      table := rows; effects := [Query st] |}) /\
  (Query st ∈ effects (updateInvoice drv id prevState formData rows) ->
   updateInvoice drv id prevState formData rows =
   {| outcome := JS.Normal {| errors := None;
                              message := Some ("Error updating invoice: "
                                               ++ msg) |};
      table := rows; effects := [Query st] |}) /\
  (Query st ∈ effects (deleteInvoice drv id rows) ->
   deleteInvoice drv id rows =
   {| outcome := JS.Normal {| errors := None;
                              message := Some ("Error deleting invoice: "
                                               ++ msg) |};
      table := rows; effects := [Query st] |}).
Proof.
  intros Hfail. split; [| split]; intros H.
  - apply createInvoice_query in H as (data & E & ->).
    rewrite (createInvoice_valid drv prevState formData data rows E),
      createInvoice_try_run, Hfail.
    reflexivity.
  - apply updateInvoice_query in H as (i & data & Hid & E & ->).
    rewrite (updateInvoice_valid drv id i prevState formData data rows Hid E),
      updateInvoice_try_run, Hfail.
    reflexivity.
  - apply deleteInvoice_query in H as (i & Hid & ->).
    rewrite (deleteInvoice_run drv id i rows Hid), Hfail.
    reflexivity.
Qed.

Lemma storage_failure_is_reported_witness :
  Sql.fails Samples.down
            (Sql.INSERT (Some "cust-1") (Some Samples.n49_99) (Some "paid"))
            [Samples.inv1] = Some "connection refused" /\
  Sql.fails Samples.down
            (Sql.UPDATE (Some "cust-1") (Some Samples.n49_99) (Some "paid")
                        "inv-1")
            [Samples.inv1] = Some "connection refused" /\
  Sql.fails Samples.down (Sql.DELETE "inv-1") [Samples.inv1] =
  Some "connection refused" /\
  createInvoice Samples.down Samples.initialState Samples.paid_49_99
                [Samples.inv1] =
  {| outcome :=
       JS.Normal {| errors := None;
                    message := Some ("Error creating invoice: "
                                     ++ "connection refused") |};
     table := [Samples.inv1];
     effects := [Query (Sql.INSERT (Some "cust-1") (Some Samples.n49_99)
                                   (Some "paid"))] |} /\
  updateInvoice Samples.down (Some "inv-1") Samples.initialState
                Samples.paid_49_99 [Samples.inv1] =
  {| outcome :=
       JS.Normal {| errors := None;
                    message := Some ("Error updating invoice: "
                                     ++ "connection refused") |};
     table := [Samples.inv1];
     effects := [Query (Sql.UPDATE (Some "cust-1") (Some Samples.n49_99)
                                   (Some "paid") "inv-1")] |} /\
  deleteInvoice Samples.down (Some "inv-1") [Samples.inv1] =
  {| outcome :=
       JS.Normal {| errors := None;
                    message := Some ("Error deleting invoice: "
                                     ++ "connection refused") |};
     table := [Samples.inv1]; effects := [Query (Sql.DELETE "inv-1")] |}.
Proof.
  do 3 (split; [reflexivity |]).
  split; [| split].
  - refine (proj1 (storage_failure_is_reported Samples.down (Some "inv-1")
                     Samples.initialState Samples.paid_49_99 [Samples.inv1]
                     (Sql.INSERT (Some "cust-1") (Some Samples.n49_99)
                                 (Some "paid"))
                     "connection refused" eq_refl) _).
    apply list_elem_of_here.
  - refine (proj1 (proj2 (storage_failure_is_reported Samples.down
                            (Some "inv-1") Samples.initialState
                            Samples.paid_49_99 [Samples.inv1]
                            (Sql.UPDATE (Some "cust-1") (Some Samples.n49_99)
                                        (Some "paid") "inv-1")
                            "connection refused" eq_refl)) _).
    apply list_elem_of_here.
  - refine (proj2 (proj2 (storage_failure_is_reported Samples.down
                            (Some "inv-1") Samples.initialState
                            Samples.paid_49_99 [Samples.inv1]
                            (Sql.DELETE "inv-1")
                            "connection refused" eq_refl)) _).
    apply list_elem_of_here.
Defined.

(** ** A successful creation *)

(** The number [n49_99] is within half a unit in the last place of
    4999/100. *)
Remark n49_99_is_nearest :
  Samples.n49_99 = S754_finite false 7035467042882847 (-47) /\
  (2 * Z.abs (100 * 7035467042882847 - 4999 * 2 ^ 47) <= 100)%Z /\
  (2 ^ 52 <= 7035467042882847 < 2 ^ 53)%Z.
Proof. split; [reflexivity |]. split; [| split]; vm_compute; congruence. Qed.

(** C7: on a form that gives customerId cust-1, amount 49.99 and status
    paid, and a storage on which the INSERT goes through, [createInvoice]
    sends exactly one statement, the INSERT of cust-1, 49.99 and paid, the
    row gets the storage's identifier and time, then the path /invoices is
    revalidated and the state returned carries the success message only. *)
Theorem paid_invoice_is_created
        drv (prevState : State) (formData : FormData.t)
        (rows : list Sql.Invoice) :
  FormData.get formData "customerId" = Some (FormData.EntryString "cust-1") ->
  FormData.get formData "amount" = Some (FormData.EntryString "49.99") ->
  FormData.get formData "status" = Some (FormData.EntryString "paid") ->
  Sql.fails drv
            (Sql.INSERT (Some "cust-1") (Some Samples.n49_99) (Some "paid"))
            rows = None ->
  createInvoice drv prevState formData rows =
  {| outcome := JS.Normal {| errors := None;
                             message := Some "Invoice created successfully" |};
     table := rows ++ [ {| Sql.id := Sql.new_id drv rows;
                           Sql.customer_id := Some "cust-1";
                           Sql.amount := Some Samples.n49_99;
                           Sql.status := Some "paid";
                           Sql.date := Sql.now drv |} ];
     effects :=
       [ Query (Sql.INSERT (Some "cust-1") (Some Samples.n49_99)
                           (Some "paid"));
         Revalidate "/invoices" ] |}.
Proof.
  intros Hc Ha Hs Hok.
  assert (E : createInvoiceSchema (fields_of formData) =
              Zod.Success {| customerId := "cust-1"; amount := Samples.n49_99;
                             status := "paid" |}).
  { unfold createInvoiceSchema, omit_id_date, fields_of.
    rewrite Hc, Ha, Hs. reflexivity. }
  rewrite (createInvoice_valid drv prevState formData _ rows E),
    createInvoice_try_run.
  cbn [customerId amount status]. rewrite Hok. reflexivity.
Qed.

Lemma paid_invoice_is_created_witness :
  FormData.get Samples.paid_49_99 "customerId" =
  Some (FormData.EntryString "cust-1") /\
  FormData.get Samples.paid_49_99 "amount" =
  Some (FormData.EntryString "49.99") /\
  FormData.get Samples.paid_49_99 "status" =
  Some (FormData.EntryString "paid") /\
  Sql.fails Samples.up
            (Sql.INSERT (Some "cust-1") (Some Samples.n49_99) (Some "paid"))
            [Samples.inv1] = None /\
  createInvoice Samples.up Samples.initialState Samples.paid_49_99
                [Samples.inv1] =
  {| outcome := JS.Normal {| errors := None;
                             message := Some "Invoice created successfully" |};
     table := [Samples.inv1]
              ++ [ {| Sql.id := Sql.new_id Samples.up [Samples.inv1];
                      Sql.customer_id := Some "cust-1";
                      Sql.amount := Some Samples.n49_99;
                      Sql.status := Some "paid";
                      Sql.date := Sql.now Samples.up |} ];
     effects :=
       [ Query (Sql.INSERT (Some "cust-1") (Some Samples.n49_99)
                           (Some "paid"));
         Revalidate "/invoices" ] |}.
Proof.
  do 4 (split; [reflexivity |]).
  exact (paid_invoice_is_created Samples.up Samples.initialState
           Samples.paid_49_99 [Samples.inv1] eq_refl eq_refl eq_refl eq_refl).
Defined.

(** ** Validation of the status *)

Lemma status_rejected_issue (formData : FormData.t) :
  status_rejected formData ->
  exists c,
    formSchema.status (f_status (fields_of formData)) =
    Zod.INVALID [(c, status_message formData)].
Proof.
  unfold status_rejected, status_message, fields_of. cbn [f_status].
  rewrite status_parse.
  destruct (FormData.get formData "status") as [v |]; [| eauto].
  intros [Hpending Hpaid]. cbn [existsb].
  apply String.eqb_neq in Hpending, Hpaid. rewrite Hpending, Hpaid.
  cbn [orb]. eauto.
Qed.

(** The one message recorded under [errors.status] for a rejected status is
    [status_message]. *)
Lemma rejected_status_message
      drv (prevState : State) (formData : FormData.t) rows :
  status_rejected formData ->
  field_errors (createInvoice drv prevState formData rows) "status" =
  Some [status_message formData] /\
  (forall id i,
      truthy id = Some i ->
      field_errors (updateInvoice drv id prevState formData rows) "status" =
      Some [status_message formData]).
Proof.
  intros H. destruct (status_rejected_issue _ H) as (c & Hc).
  destruct (omit_id_date_status_issue _ _ _ Hc) as (error & He & Hl).
  split.
  - rewrite (createInvoice_invalid drv prevState formData error rows He).
    unfold field_errors. cbn. exact Hl.
  - intros id i Hid.
    rewrite (updateInvoice_invalid drv id i prevState formData error rows Hid He).
    unfold field_errors. cbn. exact Hl.
Qed.

(** The text given to the schema as [invalid_type_error] is recorded for a
    status that is neither a string nor [undefined]; the actions never hand
    the schema such a value. *)
Lemma status_custom_message_on_null :
  formSchema.status JS.Null =
  Zod.INVALID [(Zod.invalid_type, "Please select an invoice status.")].
Proof. reflexivity. Qed.

Lemma fields_of_status_shape (formData : FormData.t) :
  f_status (fields_of formData) = JS.Undefined \/
  exists s, f_status (fields_of formData) = JS.Str s.
Proof.
  unfold fields_of. cbn [f_status].
  destruct (FormData.get formData "status"); eauto.
Qed.

(** For every form whose status is missing or is not exactly pending or
    paid, [createInvoice] returns a result with an [errors.status] entry,
    and so does [updateInvoice] when it is given an identifier that is not
    empty. *)
Theorem rejected_status_is_reported
        drv (prevState : State) (formData : FormData.t) rows :
  status_rejected formData ->
  reports (createInvoice drv prevState formData rows) "status" /\
  (forall id i,
      truthy id = Some i ->
      reports (updateInvoice drv id prevState formData rows) "status").
Proof.
  intros H.
  destruct (rejected_status_message drv prevState formData rows H) as [Hc Hu].
  split.
  - exists [status_message formData]. now split.
  - intros id i Hid. exists [status_message formData].
    split; [exact (Hu id i Hid) | discriminate].
Qed.

Lemma rejected_status_is_reported_witness :
  status_rejected (Samples.form "cust-1" "49.99" "overdue") /\
  reports (createInvoice Samples.up Samples.initialState
             (Samples.form "cust-1" "49.99" "overdue") [Samples.inv1])
          "status" /\
  reports (updateInvoice Samples.up (Some "inv-1") Samples.initialState
             (Samples.form "cust-1" "49.99" "overdue") [Samples.inv1])
          "status".
Proof.
  assert (Hr : status_rejected (Samples.form "cust-1" "49.99" "overdue"))
    by (split; discriminate).
  split; [exact Hr |].
  destruct (rejected_status_is_reported Samples.up Samples.initialState
              (Samples.form "cust-1" "49.99" "overdue") [Samples.inv1] Hr)
    as [Hc Hu].
  split; [exact Hc |].
  exact (Hu (Some "inv-1") "inv-1" eq_refl).
Defined.

(** On an empty identifier [updateInvoice] does not get as far as the
    status: the status overdue is rejected by the schema, but the action
    returns the identifier message before it validates, with no [errors] at
    all. *)
Lemma rejected_status_with_empty_id :
  status_rejected (Samples.form "cust-1" "49.99" "overdue") /\
  updateInvoice Samples.up (Some "") Samples.initialState
                (Samples.form "cust-1" "49.99" "overdue") [Samples.inv1] =
  {| outcome := JS.Normal {| errors := None;
                             message := Some "Invoice ID is required." |};
     table := [Samples.inv1]; effects := [] |} /\
  ~ reports (updateInvoice Samples.up (Some "") Samples.initialState
               (Samples.form "cust-1" "49.99" "overdue") [Samples.inv1])
            "status".
Proof.
  split; [split; discriminate |]. split; [reflexivity |].
  intros (msgs & Hm & _). discriminate Hm.
Qed.

(** C8, on the code: both actions report a rejected status under
    [errors.status], but the message recorded is not the text written in
    the schema, "Please select an invoice status.".  On the form on which
    no status was chosen it is the default "Required", for [createInvoice]
    and for [updateInvoice], and for a status outside the enumeration it is
    the default text for an invalid enum value. *)
Theorem status_message_is_the_default
        drv (prevState : State) (rows : list Sql.Invoice) :
  field_errors (createInvoice drv prevState Samples.no_status rows) "status" =
  Some ["Required"] /\
  field_errors
    (updateInvoice drv (Some "inv-1") prevState Samples.no_status rows)
    "status" = Some ["Required"] /\
  field_errors
    (createInvoice drv prevState (Samples.form "cust-1" "49.99" "overdue") rows)
    "status" =
  Some ["Invalid enum value. Expected 'pending' | 'paid', received 'overdue'"].
Proof.
  split; [| split].
  - exact (proj1 (rejected_status_message drv prevState
                    Samples.no_status rows I)).
  - exact (proj2 (rejected_status_message drv prevState
                    Samples.no_status rows I)
                 (Some "inv-1") "inv-1" eq_refl).
  - refine (proj1 (rejected_status_message drv prevState
                     (Samples.form "cust-1" "49.99" "overdue") rows _)).
    split; discriminate.
Qed.

(** ** Authentication *)

(** C9: [authenticate] returns the success marker when [signIn] returns; the
    text for invalid credentials when [signIn] throws an [AuthError] of type
    CredentialsSignin; the generic text when it throws an [AuthError] of any
    other type; and throws on whatever else [signIn] throws. *)
Theorem authenticate_outcomes
        (signIn : string -> FormData.t -> JS.Completion unit)
        (prevState : option string) (formData : FormData.t) :
  (forall u,
      signIn "credentials" formData = JS.Normal u ->
      authenticate signIn prevState formData = JS.Normal "Success") /\
  (forall m,
      signIn "credentials" formData
      = JS.Throw (JS.AuthError "CredentialsSignin" m) ->
      authenticate signIn prevState formData
      = JS.Normal "Invalid credentials.") /\
  (forall type m,
      type <> "CredentialsSignin" ->
      signIn "credentials" formData = JS.Throw (JS.AuthError type m) ->
      authenticate signIn prevState formData
      = JS.Normal "Something went wrong.") /\
  (forall e,
      (forall type m, e <> JS.AuthError type m) ->
      signIn "credentials" formData = JS.Throw e ->
      authenticate signIn prevState formData = JS.Throw e).
Proof.
  unfold authenticate. repeat split.
  - intros u ->. reflexivity.
  - intros m ->. reflexivity.
  - intros type m Hne ->. apply String.eqb_neq in Hne. now rewrite Hne.
  - intros e Hne ->. destruct e as [type m | m | url]; try reflexivity.
    now destruct (Hne type m).
Qed.

Lemma authenticate_outcomes_witness :
  authenticate (fun _ _ => JS.Normal tt) None Samples.paid_49_99
  = JS.Normal "Success" /\
  authenticate
    (fun _ _ => JS.Throw (JS.AuthError "CredentialsSignin" "bad password"))
    None Samples.paid_49_99
  = JS.Normal "Invalid credentials." /\
  authenticate
    (fun _ _ => JS.Throw (JS.AuthError "CallbackRouteError" "callback"))
    None Samples.paid_49_99
  = JS.Normal "Something went wrong." /\
  authenticate (fun _ _ => JS.Throw (JS.Error "fetch failed")) None
               Samples.paid_49_99
  = JS.Throw (JS.Error "fetch failed").
Proof.
  split; [| split; [| split]].
  - exact (proj1 (authenticate_outcomes (fun _ _ => JS.Normal tt) None
                    Samples.paid_49_99) tt eq_refl).
  - exact (proj1 (proj2 (authenticate_outcomes
                           (fun _ _ => JS.Throw (JS.AuthError
                                                   "CredentialsSignin"
                                                   "bad password"))
                           None Samples.paid_49_99))
                 "bad password" eq_refl).
  - refine (proj1 (proj2 (proj2 (authenticate_outcomes
                                   (fun _ _ => JS.Throw (JS.AuthError
                                                           "CallbackRouteError"
                                                           "callback"))
                                   None Samples.paid_49_99)))
                  "CallbackRouteError" "callback" _ eq_refl).
    discriminate.
  - refine (proj2 (proj2 (proj2 (authenticate_outcomes
                                   (fun _ _ => JS.Throw (JS.Error
                                                           "fetch failed"))
                                   None Samples.paid_49_99)))
                  (JS.Error "fetch failed") _ eq_refl).
    discriminate.
Defined.

(** ** The session gate *)

(** C10: without a session [Layout] redirects to the login route and returns
    no tree at all; with a session it returns a tree, in which the children
    it was given are rendered, once and unchanged. *)
Theorem layout_is_gated (Session C : Type) (children : C) :
  Layout Session C None children = JS.Throw (JS.NEXT_REDIRECT "/login") /\
  (forall session : Session,
      exists tree,
        Layout Session C (Some session) children = JS.Normal tree /\
        rendered tree = [children]).
Proof.
  split; [reflexivity |].
  intros session. eexists. split; reflexivity.
Qed.

(** ** The three fields of a form, one by one *)

Lemma customerId_field (formData : FormData.t) :
  (customerId_missing formData /\
   exists c m,
     formSchema.customerId (f_customerId (fields_of formData)) =
     Zod.INVALID [(c, m)]) \/
  (exists v,
      FormData.get formData "customerId" = Some v /\
      formSchema.customerId (f_customerId (fields_of formData)) =
      Zod.OK (FormData.toString v)).
Proof.
  unfold customerId_missing, fields_of. cbn [f_customerId].
  rewrite customerId_parse.
  destruct (FormData.get formData "customerId") as [v |]; eauto.
Qed.

Lemma amount_field (formData : FormData.t) :
  (amount_rejected formData /\
   exists c m,
     formSchema.amount (f_amount (fields_of formData)) =
     Zod.INVALID [(c, m)]) \/
  (exists v,
      FormData.get formData "amount" = Some v /\
      ~ amount_rejected formData /\
      JS.gt (JS.StringToNumber (FormData.toString v)) JS.zero = true /\
      formSchema.amount (f_amount (fields_of formData)) =
      Zod.OK (JS.StringToNumber (FormData.toString v))).
Proof.
  pose proof (amount_rejected_issue formData) as Hissue.
  unfold amount_rejected, fields_of in *. cbn [f_amount] in *.
  rewrite amount_parse in *.
  destruct (FormData.get formData "amount") as [v |]; cbn [JS.Number] in *.
  - destruct (JS.isNaN _) eqn:Hnan; [left; split; auto |].
    destruct (JS.le _ _) eqn:Hle; [left; split; auto |].
    right. exists v. repeat split; auto.
    + intros [H | H]; discriminate.
    + now apply not_le_zero_gt.
  - left. split; auto.
Qed.

Lemma status_field (formData : FormData.t) :
  (status_rejected formData /\
   exists c m,
     formSchema.status (f_status (fields_of formData)) =
     Zod.INVALID [(c, m)]) \/
  (exists v,
      FormData.get formData "status" = Some v /\
      ~ status_rejected formData /\
      (FormData.toString v = "pending" \/ FormData.toString v = "paid") /\
      formSchema.status (f_status (fields_of formData)) =
      Zod.OK (FormData.toString v)).
Proof.
  pose proof (status_rejected_issue formData) as Hissue.
  unfold status_rejected, fields_of in *. cbn [f_status] in *.
  rewrite status_parse in *.
  destruct (FormData.get formData "status") as [v |].
  - cbn [existsb].
    destruct (String.eqb_spec (FormData.toString v) "pending") as [Hp | Hp].
    { right. exists v. repeat split; auto. intros [H _]. contradiction. }
    destruct (String.eqb_spec (FormData.toString v) "paid") as [Hq | Hq].
    { right. exists v. repeat split; auto. intros [_ H]. contradiction. }
    left. split; [now split |].
    destruct (Hissue (conj Hp Hq)) as (c & Hc). eauto.
  - left. split; [exact I |]. destruct (Hissue I) as (c & Hc). eauto.
Qed.

Lemma fieldErrors_lookup {A B C : Type} (pc : Zod.ParseReturn A)
      (pa : Zod.ParseReturn B) (ps : Zod.ParseReturn C) (key : string) :
  Zod.flatten (Zod.issues_at "customerId" pc ++ Zod.issues_at "amount" pa
               ++ Zod.issues_at "status" ps)%list !! key =
  match ((if String.eqb "customerId" key then issue_messages pc else [])
         ++ (if String.eqb "amount" key then issue_messages pa else [])
         ++ (if String.eqb "status" key then issue_messages ps else []))%list
  with
  | [] => None
  | l => Some l
  end.
Proof.
  rewrite flatten_lookup, !messages_at_app, !messages_at_issues.
  reflexivity.
Qed.

Ltac key_cases key :=
  destruct (String.eqb_spec "customerId" key);
  destruct (String.eqb_spec "amount" key);
  destruct (String.eqb_spec "status" key);
  subst; try discriminate; cbn [issue_messages map snd app].

(** What the schema makes of a form: either some field is rejected, the
    parse fails, and [fieldErrors] has an entry exactly under each rejected
    field; or no field is rejected and the parse returns the three values of
    the form. *)
Lemma form_cases (formData : FormData.t) :
  (form_rejected formData /\
   exists error,
     omit_id_date (fields_of formData) = Zod.Failure error /\
     forall key,
       (exists msgs, Zod.flatten error !! key = Some msgs /\ msgs <> []) <->
       (key = "customerId" /\ customerId_missing formData) \/
       (key = "amount" /\ amount_rejected formData) \/
       (key = "status" /\ status_rejected formData)) \/
  (~ form_rejected formData /\
   exists vc va vs,
     FormData.get formData "customerId" = Some vc /\
     FormData.get formData "amount" = Some va /\
     FormData.get formData "status" = Some vs /\
     JS.gt (JS.StringToNumber (FormData.toString va)) JS.zero = true /\
     (FormData.toString vs = "pending" \/ FormData.toString vs = "paid") /\
     omit_id_date (fields_of formData) =
     Zod.Success {| customerId := FormData.toString vc;
                    amount := JS.StringToNumber (FormData.toString va);
                    status := FormData.toString vs |}).
Proof.
  unfold omit_id_date.
  destruct (customerId_field formData)
    as [(Rc & cc & mc & Hc) | (vc & Gc & Hc)];
    destruct (amount_field formData)
      as [(Ra & ca & ma & Ha) | (va & Ga & Na & Pa & Ha)];
    destruct (status_field formData)
      as [(Rs & cs & ms & Hs) | (vs & Gs & Ns & Ps & Hs)];
    rewrite Hc, Ha, Hs.
  8: { right. split.
       - intros [H | [H | H]]; [| contradiction | contradiction].
         unfold customerId_missing in H. congruence.
       - exists vc, va, vs. auto 10. }
  all: left; (split; [unfold form_rejected; tauto |]);
    eexists; (split; [reflexivity |]); intros key;
    rewrite fieldErrors_lookup; unfold customerId_missing in *.
  all: key_cases key;
    (split;
     [ intros (msgs & Hm & Hne); try discriminate Hm; auto
     | intros [[Hk H] | [[Hk H] | [Hk H]]]; try discriminate Hk;
       try contradiction; try congruence; eauto using nil_cons ]).
Qed.

Lemma accepted_parse (formData : FormData.t) vc va vs :
  FormData.get formData "customerId" = Some vc ->
  FormData.get formData "amount" = Some va ->
  FormData.get formData "status" = Some vs ->
  JS.gt (JS.StringToNumber (FormData.toString va)) JS.zero = true ->
  FormData.toString vs = "pending" \/ FormData.toString vs = "paid" ->
  omit_id_date (fields_of formData) =
  Zod.Success {| customerId := FormData.toString vc;
                 amount := JS.StringToNumber (FormData.toString va);
                 status := FormData.toString vs |}.
Proof.
  intros Gc Ga Gs Hgt Hs.
  unfold omit_id_date, fields_of. cbn [f_customerId f_amount f_status].
  rewrite Gc, Ga, Gs, customerId_parse, amount_parse, status_parse.
  cbn [JS.Number]. apply gt_zero_not_le in Hgt as [-> ->].
  destruct Hs as [-> | ->]; reflexivity.
Qed.

(** ** Forms the schema rejects *)

(** As soon as one field of the form is rejected, [createInvoice] returns
    its validation message with [errors], sends nothing and leaves the table
    as it was; so does [updateInvoice], with its own message, when it has an
    identifier. *)
Theorem rejected_form_is_refused
        drv (prevState : State) (formData : FormData.t) rows :
  form_rejected formData ->
  (exists fieldErrors,
      createInvoice drv prevState formData rows =
      {| outcome :=
           JS.Normal
             {| errors := Some fieldErrors;
                message := Some "Missing Fields. Failed to Create Invoice." |};
         table := rows; effects := [] |}) /\
  (forall id i,
      truthy id = Some i ->
      exists fieldErrors,
        updateInvoice drv id prevState formData rows =
        {| outcome :=
             JS.Normal
               {| errors := Some fieldErrors;
                  message := Some "Missing fields. Failed to update invoice."
               |};
           table := rows; effects := [] |}).
Proof.
  intros Hrej.
  destruct (form_cases formData) as [(_ & error & He & _) | (Hacc & _)];
    [| contradiction].
  split.
  - exists (Zod.flatten error). now apply createInvoice_invalid.
  - intros id i Hid. exists (Zod.flatten error).
    now apply (updateInvoice_invalid drv id i).
Qed.

Lemma rejected_form_is_refused_witness :
  form_rejected [("amount", FormData.EntryString "12")] /\
  (exists fieldErrors,
      createInvoice Samples.up Samples.initialState
                    [("amount", FormData.EntryString "12")] [Samples.inv1] =
      {| outcome :=
           JS.Normal
             {| errors := Some fieldErrors;
                message := Some "Missing Fields. Failed to Create Invoice." |};
         table := [Samples.inv1]; effects := [] |}) /\
  (exists fieldErrors,
      updateInvoice Samples.up (Some "inv-1") Samples.initialState
                    [("amount", FormData.EntryString "12")] [Samples.inv1] =
      {| outcome :=
           JS.Normal
             {| errors := Some fieldErrors;
                message := Some "Missing fields. Failed to update invoice."
             |};
         table := [Samples.inv1]; effects := [] |}).
Proof.
  assert (Hr : form_rejected [("amount", FormData.EntryString "12")])
    by (left; reflexivity).
  split; [exact Hr |].
  destruct (rejected_form_is_refused Samples.up Samples.initialState
              [("amount", FormData.EntryString "12")] [Samples.inv1] Hr)
    as [Hc Hu].
  split; [exact Hc |].
  exact (Hu (Some "inv-1") "inv-1" eq_refl).
Defined.



(** ** Forms the schema accepts *)

(** On a form that gives a customer, an amount whose number is greater than
    zero and one of the two statuses, [createInvoice] sends the INSERT of
    these three values; when it goes through, the table gains one row, with
    the storage's identifier and time, the path /invoices is revalidated and
    the success message returned; when it fails, the table stays and the
    driver's message is returned. *)
Theorem accepted_form_is_inserted
        drv (prevState : State) (formData : FormData.t) rows vc va vs :
  FormData.get formData "customerId" = Some vc ->
  FormData.get formData "amount" = Some va ->
  FormData.get formData "status" = Some vs ->
  JS.gt (JS.StringToNumber (FormData.toString va)) JS.zero = true ->
  FormData.toString vs = "pending" \/ FormData.toString vs = "paid" ->
  createInvoice drv prevState formData rows =
  match Sql.fails drv
          (Sql.INSERT (Some (FormData.toString vc))
                      (Some (JS.StringToNumber (FormData.toString va)))
                      (Some (FormData.toString vs))) rows
  with
  | Some msg =>
    {| outcome :=
         JS.Normal {| errors := None;
                      message := Some ("Error creating invoice: " ++ msg) |};
       table := rows;
       effects :=
         [ Query (Sql.INSERT (Some (FormData.toString vc))
                    (Some (JS.StringToNumber (FormData.toString va)))
                    (Some (FormData.toString vs))) ] |}
  | None =>
    {| outcome :=
         JS.Normal {| errors := None;
                      message := Some "Invoice created successfully" |};
       table :=
         rows ++ [ {| Sql.id := Sql.new_id drv rows;
                      Sql.customer_id := Some (FormData.toString vc);
                      Sql.amount :=
                        Some (JS.StringToNumber (FormData.toString va));
                      Sql.status := Some (FormData.toString vs);
                      Sql.date := Sql.now drv |} ];
       effects :=
         [ Query (Sql.INSERT (Some (FormData.toString vc))
                    (Some (JS.StringToNumber (FormData.toString va)))
                    (Some (FormData.toString vs)));
           Revalidate "/invoices" ] |}
  end.
Proof.
  intros Gc Ga Gs Hgt Hs.
  rewrite (createInvoice_valid drv prevState formData _ rows
             (accepted_parse formData vc va vs Gc Ga Gs Hgt Hs)),
    createInvoice_try_run.
  reflexivity.
Qed.

Lemma accepted_form_is_inserted_witness :
  FormData.get (Samples.form "" "Infinity" "pending") "customerId" =
  Some (FormData.EntryString "") /\
  FormData.get (Samples.form "" "Infinity" "pending") "amount" =
  Some (FormData.EntryString "Infinity") /\
  FormData.get (Samples.form "" "Infinity" "pending") "status" =
  Some (FormData.EntryString "pending") /\
  JS.gt (JS.StringToNumber "Infinity") JS.zero = true /\
  ("pending" = "pending" \/ "pending" = "paid") /\
  createInvoice Samples.up Samples.initialState
                (Samples.form "" "Infinity" "pending") [Samples.inv1] =
  {| outcome :=
       JS.Normal {| errors := None;
                    message := Some "Invoice created successfully" |};
     table :=
       [ Samples.inv1;
         {| Sql.id := "inv-new"; Sql.customer_id := Some "";
            Sql.amount := Some JS.Infinity; Sql.status := Some "pending";
            Sql.date := 1700000000 |} ];
     effects :=
       [ Query (Sql.INSERT (Some "") (Some JS.Infinity) (Some "pending"));
         Revalidate "/invoices" ] |}.
Proof.
  do 4 (split; [reflexivity |]). split; [left; reflexivity |].
  exact (accepted_form_is_inserted Samples.up Samples.initialState
           (Samples.form "" "Infinity" "pending") [Samples.inv1]
           (FormData.EntryString "") (FormData.EntryString "Infinity")
           (FormData.EntryString "pending") eq_refl eq_refl eq_refl eq_refl
           (or_introl eq_refl)).
Defined.

(** On an accepted form and with an identifier, [updateInvoice] sends the
    UPDATE of the three values under that identifier; when it goes through,
    every row with the identifier takes the three values and keeps its
    identifier and date, every other row is as it was, the path /invoices is
    revalidated and the success message returned; when it fails, the table
    stays and the driver's message is returned. *)
Theorem accepted_form_is_updated
        drv (id : option string) (i : string) (prevState : State)
        (formData : FormData.t) rows vc va vs :
  truthy id = Some i ->
  FormData.get formData "customerId" = Some vc ->
  FormData.get formData "amount" = Some va ->
  FormData.get formData "status" = Some vs ->
  JS.gt (JS.StringToNumber (FormData.toString va)) JS.zero = true ->
  FormData.toString vs = "pending" \/ FormData.toString vs = "paid" ->
  updateInvoice drv id prevState formData rows =
  match Sql.fails drv
          (Sql.UPDATE (Some (FormData.toString vc))
                      (Some (JS.StringToNumber (FormData.toString va)))
                      (Some (FormData.toString vs)) i) rows
  with
  | Some msg =>
    {| outcome :=
         JS.Normal {| errors := None;
                      message := Some ("Error updating invoice: " ++ msg) |};
       table := rows;
       effects :=
         [ Query (Sql.UPDATE (Some (FormData.toString vc))
                    (Some (JS.StringToNumber (FormData.toString va)))
                    (Some (FormData.toString vs)) i) ] |}
  | None =>
    {| outcome :=
         JS.Normal {| errors := None;
                      message := Some "Invoice updated successfully" |};
       table :=
         map (fun r =>
                if String.eqb (Sql.id r) i then
                  {| Sql.id := Sql.id r;
                     Sql.customer_id := Some (FormData.toString vc);
                     Sql.amount :=
                       Some (JS.StringToNumber (FormData.toString va));
                     Sql.status := Some (FormData.toString vs);
                     Sql.date := Sql.date r |}
                else r) rows;
       effects :=
         [ Query (Sql.UPDATE (Some (FormData.toString vc))
                    (Some (JS.StringToNumber (FormData.toString va)))
                    (Some (FormData.toString vs)) i);
           Revalidate "/invoices" ] |}
  end.
Proof.
  intros Hid Gc Ga Gs Hgt Hs.
  rewrite (updateInvoice_valid drv id i prevState formData _ rows Hid
             (accepted_parse formData vc va vs Gc Ga Gs Hgt Hs)),
    updateInvoice_try_run.
  reflexivity.
Qed.

Lemma accepted_form_is_updated_witness :
  truthy (Some "inv-2") = Some "inv-2" /\
  FormData.get Samples.paid_49_99 "customerId" =
  Some (FormData.EntryString "cust-1") /\
  FormData.get Samples.paid_49_99 "amount" =
  Some (FormData.EntryString "49.99") /\
  FormData.get Samples.paid_49_99 "status" =
  Some (FormData.EntryString "paid") /\
  JS.gt (JS.StringToNumber "49.99") JS.zero = true /\
  ("paid" = "pending" \/ "paid" = "paid") /\
  updateInvoice Samples.up (Some "inv-2") Samples.initialState
                Samples.paid_49_99 [Samples.inv1; Samples.inv2] =
  {| outcome :=
       JS.Normal {| errors := None;
                    message := Some "Invoice updated successfully" |};
     table :=
       [ Samples.inv1;
         {| Sql.id := "inv-2"; Sql.customer_id := Some "cust-1";
            Sql.amount := Some Samples.n49_99; Sql.status := Some "paid";
            Sql.date := 1600000500 |} ];
     effects :=
       [ Query (Sql.UPDATE (Some "cust-1") (Some Samples.n49_99)
                           (Some "paid") "inv-2");
         Revalidate "/invoices" ] |}.
Proof.
  do 5 (split; [reflexivity |]). split; [right; reflexivity |].
  exact (accepted_form_is_updated Samples.up (Some "inv-2") "inv-2"
           Samples.initialState Samples.paid_49_99
           [Samples.inv1; Samples.inv2]
           (FormData.EntryString "cust-1") (FormData.EntryString "49.99")
           (FormData.EntryString "paid") eq_refl eq_refl eq_refl eq_refl
           eq_refl (or_intror eq_refl)).
Defined.

(** ** How the actions touch the storage *)

Lemma try_run_disciplined drv rows st (r : Run State) m1 m2 :
  r = match Sql.fails drv st rows with
      | Some msg =>
        {| outcome := JS.Normal (message_only (m1 msg)); table := rows;
           effects := [Query st] |}
      | None =>
        {| outcome := JS.Normal (message_only m2);
           table := Sql.run drv st rows;
           effects := [Query st; Revalidate "/invoices"] |}
      end ->
  disciplined drv rows r.
Proof.
  intros ->. unfold disciplined.
  destruct (Sql.fails drv st rows) as [msg |] eqn:E; cbn [effects table].
  - right. left. exists st, msg. auto.
  - right. right. exists st. auto.
Qed.

(** Every run of the three invoice actions sends at most one statement; the
    table changes only by a statement that went through, and /invoices is
    revalidated exactly then, after the statement and only once. *)
Theorem invoice_actions_are_disciplined
        drv (id : option string) (prevState : State)
        (formData : FormData.t) (rows : list Sql.Invoice) :
  disciplined drv rows (createInvoice drv prevState formData rows) /\
  disciplined drv rows (updateInvoice drv id prevState formData rows) /\
  disciplined drv rows (deleteInvoice drv id rows).
Proof.
  split; [| split].
  - unfold createInvoice.
    destruct (createInvoiceSchema _); [| left; split; reflexivity].
    eapply try_run_disciplined. apply createInvoice_try_run.
  - unfold updateInvoice. destruct (truthy id); [| left; split; reflexivity].
    destruct (updateInvoiceSchema _); [| left; split; reflexivity].
    eapply try_run_disciplined. apply updateInvoice_try_run.
  - destruct (truthy id) as [i |] eqn:Hid.
    + eapply try_run_disciplined.
      exact (deleteInvoice_run drv id i rows Hid).
    + rewrite (deleteInvoice_no_id drv id rows Hid). left. split; reflexivity.
Qed.

(** Whatever the input and the storage, the state an invoice action returns
    carries a message. *)
Theorem every_result_has_a_message
        drv (id : option string) (prevState : State)
        (formData : FormData.t) (rows : list Sql.Invoice) :
  (exists m,
      returned_message (createInvoice drv prevState formData rows) = Some m) /\
  (exists m,
      returned_message (updateInvoice drv id prevState formData rows)
      = Some m) /\
  (exists m, returned_message (deleteInvoice drv id rows) = Some m).
Proof.
  unfold returned_message. split; [| split].
  - unfold createInvoice.
    destruct (createInvoiceSchema _); [| cbn; eauto].
    rewrite createInvoice_try_run. destruct (Sql.fails _ _ _); cbn; eauto.
  - unfold updateInvoice. destruct (truthy id); [| cbn; eauto].
    destruct (updateInvoiceSchema _); [| cbn; eauto].
    rewrite updateInvoice_try_run. destruct (Sql.fails _ _ _); cbn; eauto.
  - destruct (truthy id) as [i |] eqn:Hid.
    + rewrite (deleteInvoice_run drv id i rows Hid).
      destruct (Sql.fails _ _ _); cbn; eauto.
    + rewrite (deleteInvoice_no_id drv id rows Hid). cbn; eauto.
Qed.

(** ** Deleting *)

Lemma run_DELETE_elem drv i (rows : list Sql.Invoice) (r : Sql.Invoice) :
  r ∈ Sql.run drv (Sql.DELETE i) rows <-> r ∈ rows /\ Sql.id r <> i.
Proof.
  cbn [Sql.run]. rewrite !list_elem_of_In, List.filter_In.
  rewrite negb_true_iff, String.eqb_neq. reflexivity.
Qed.

Lemma run_DELETE_absent drv i (rows : list Sql.Invoice) :
  (forall r, r ∈ rows -> Sql.id r <> i) ->
  Sql.run drv (Sql.DELETE i) rows = rows.
Proof.
  cbn [Sql.run]. induction rows as [| r rows IH]; intros H; [reflexivity |].
  cbn [List.filter].
  assert (Hr : Sql.id r <> i) by (apply H; apply list_elem_of_here).
  apply String.eqb_neq in Hr. rewrite Hr. cbn [negb]. f_equal.
  apply IH. intros r' Hr'. apply H. now apply list_elem_of_further.
Qed.

(** When the DELETE goes through, the table holds exactly the rows it held
    under another identifier; the success message is returned and /invoices
    revalidated. *)
Theorem deleteInvoice_removes_the_invoice
        drv (id : option string) (i : string) (rows : list Sql.Invoice) :
  truthy id = Some i ->
  Sql.fails drv (Sql.DELETE i) rows = None ->
  returned_message (deleteInvoice drv id rows)
  = Some "Invoice deleted successfully" /\
  effects (deleteInvoice drv id rows)
  = [Query (Sql.DELETE i); Revalidate "/invoices"] /\
  (forall r,
      r ∈ table (deleteInvoice drv id rows) <-> r ∈ rows /\ Sql.id r <> i).
Proof.
  intros Hid Hok. rewrite (deleteInvoice_run drv id i rows Hid), Hok.
  split; [reflexivity |]. split; [reflexivity |].
  intros r. cbn [table]. apply run_DELETE_elem.
Qed.

Lemma deleteInvoice_removes_the_invoice_witness :
  truthy (Some "inv-1") = Some "inv-1" /\
  Sql.fails Samples.up (Sql.DELETE "inv-1") [Samples.inv1; Samples.inv2]
  = None /\
  returned_message
    (deleteInvoice Samples.up (Some "inv-1") [Samples.inv1; Samples.inv2])
  = Some "Invoice deleted successfully" /\
  effects
    (deleteInvoice Samples.up (Some "inv-1") [Samples.inv1; Samples.inv2])
  = [Query (Sql.DELETE "inv-1"); Revalidate "/invoices"] /\
  (forall r,
      r ∈ table (deleteInvoice Samples.up (Some "inv-1")
                   [Samples.inv1; Samples.inv2]) <->
      r ∈ [Samples.inv1; Samples.inv2] /\ Sql.id r <> "inv-1").
Proof.
  do 2 (split; [reflexivity |]).
  exact (deleteInvoice_removes_the_invoice Samples.up (Some "inv-1") "inv-1"
           [Samples.inv1; Samples.inv2] eq_refl eq_refl).
Defined.

(** Deleting under an identifier no row has is not an error: the statement
    is sent, the table is as it was, /invoices is revalidated and the
    success message is returned all the same. *)
Theorem deleteInvoice_of_unknown_id
        drv (id : option string) (i : string) (rows : list Sql.Invoice) :
  truthy id = Some i ->
  Sql.fails drv (Sql.DELETE i) rows = None ->
  (forall r, r ∈ rows -> Sql.id r <> i) ->
  deleteInvoice drv id rows =
  {| outcome := JS.Normal {| errors := None;
                             message := Some "Invoice deleted successfully" |};
     table := rows;
     effects := [Query (Sql.DELETE i); Revalidate "/invoices"] |}.
Proof.
  intros Hid Hok Habs. rewrite (deleteInvoice_run drv id i rows Hid), Hok.
  now rewrite (run_DELETE_absent drv i rows Habs).
Qed.

Lemma deleteInvoice_of_unknown_id_witness :
  truthy (Some "inv-9") = Some "inv-9" /\
  Sql.fails Samples.up (Sql.DELETE "inv-9") [Samples.inv1; Samples.inv2]
  = None /\
  (forall r, r ∈ [Samples.inv1; Samples.inv2] -> Sql.id r <> "inv-9") /\
  deleteInvoice Samples.up (Some "inv-9") [Samples.inv1; Samples.inv2] =
  {| outcome := JS.Normal {| errors := None;
                             message := Some "Invoice deleted successfully" |};
     table := [Samples.inv1; Samples.inv2];
     effects := [Query (Sql.DELETE "inv-9"); Revalidate "/invoices"] |}.
Proof.
  assert (Habs : forall r,
             r ∈ [Samples.inv1; Samples.inv2] -> Sql.id r <> "inv-9").
  { intros r Hr.
    apply elem_of_cons in Hr as [-> | Hr]; [discriminate |].
    apply elem_of_cons in Hr as [-> | Hr]; [discriminate |].
    now apply elem_of_nil in Hr. }
  do 2 (split; [reflexivity |]). split; [exact Habs |].
  exact (deleteInvoice_of_unknown_id Samples.up (Some "inv-9") "inv-9"
           [Samples.inv1; Samples.inv2] eq_refl eq_refl Habs).
Defined.

(** Once a DELETE has gone through, deleting again changes nothing more:
    whether the storage the second call meets takes the statement or
    refuses it, the table a second [deleteInvoice] under the same
    identifier leaves is the table the first one left. *)
Theorem deleted_stays_deleted
        drv drv' (id : option string) (i : string)
        (rows : list Sql.Invoice) :
  truthy id = Some i ->
  Sql.fails drv (Sql.DELETE i) rows = None ->
  table (deleteInvoice drv' id (table (deleteInvoice drv id rows))) =
  table (deleteInvoice drv id rows).
Proof.
  intros Hid Hok.
  rewrite (deleteInvoice_run drv id i rows Hid), Hok. cbn [table].
  rewrite (deleteInvoice_run drv' id i _ Hid).
  destruct (Sql.fails drv' (Sql.DELETE i) (Sql.run drv (Sql.DELETE i) rows));
    cbn [table]; [reflexivity |].
  change (Sql.run drv' (Sql.DELETE i) (Sql.run drv (Sql.DELETE i) rows))
    with (Sql.run drv (Sql.DELETE i) (Sql.run drv (Sql.DELETE i) rows)).
  apply run_DELETE_absent. intros r Hr.
  now apply run_DELETE_elem in Hr.
Qed.

Lemma deleted_stays_deleted_witness :
  truthy (Some "inv-1") = Some "inv-1" /\
  Sql.fails Samples.up (Sql.DELETE "inv-1") [Samples.inv1; Samples.inv2]
  = None /\
  table (deleteInvoice Samples.up (Some "inv-1")
           (table (deleteInvoice Samples.up (Some "inv-1")
                     [Samples.inv1; Samples.inv2]))) = [Samples.inv2] /\
  table (deleteInvoice Samples.down (Some "inv-1")
           (table (deleteInvoice Samples.up (Some "inv-1")
                     [Samples.inv1; Samples.inv2]))) = [Samples.inv2].
Proof.
  do 2 (split; [reflexivity |]). split.
  - exact (deleted_stays_deleted Samples.up Samples.up (Some "inv-1") "inv-1"
             [Samples.inv1; Samples.inv2] eq_refl eq_refl).
  - exact (deleted_stays_deleted Samples.up Samples.down (Some "inv-1")
             "inv-1" [Samples.inv1; Samples.inv2] eq_refl eq_refl).
Defined.

(** ** Updating *)

Lemma run_UPDATE_absent drv c a s i (rows : list Sql.Invoice) :
  (forall r, r ∈ rows -> Sql.id r <> i) ->
  Sql.run drv (Sql.UPDATE c a s i) rows = rows.
Proof.
  cbn [Sql.run]. induction rows as [| r rows IH]; intros H; [reflexivity |].
  cbn [map].
  assert (Hr : Sql.id r <> i) by (apply H; apply list_elem_of_here).
  apply String.eqb_neq in Hr. rewrite Hr. f_equal.
  apply IH. intros r' Hr'. apply H. now apply list_elem_of_further.
Qed.

Lemma run_UPDATE_ids drv c a s i (rows : list Sql.Invoice) :
  map Sql.id (Sql.run drv (Sql.UPDATE c a s i) rows) = map Sql.id rows /\
  map Sql.date (Sql.run drv (Sql.UPDATE c a s i) rows) = map Sql.date rows.
Proof.
  cbn [Sql.run]. induction rows as [| r rows [IH1 IH2]]; [now split |].
  cbn [map]. rewrite IH1, IH2.
  destruct (String.eqb (Sql.id r) i); now split.
Qed.

Lemma run_UPDATE_twice drv c a s c' a' s' i (rows : list Sql.Invoice) :
  Sql.run drv (Sql.UPDATE (Some c') (Some a') (Some s') i)
          (Sql.run drv (Sql.UPDATE c a s i) rows) =
  Sql.run drv (Sql.UPDATE (Some c') (Some a') (Some s') i) rows.
Proof.
  cbn [Sql.run]. induction rows as [| r rows IH]; [reflexivity |].
  cbn [map]. rewrite IH. f_equal.
  destruct (String.eqb (Sql.id r) i) eqn:E; [| now rewrite E].
  cbn [Sql.id]. now rewrite E.
Qed.

(** The table [updateInvoice] leaves: the one it found, or the one the
    UPDATE of the parsed values makes of it. *)
Lemma updateInvoice_table drv id prevState formData rows :
  table (updateInvoice drv id prevState formData rows) = rows \/
  exists i data,
    truthy id = Some i /\
    omit_id_date (fields_of formData) = Zod.Success data /\
    table (updateInvoice drv id prevState formData rows) =
    Sql.run drv (Sql.UPDATE (Some (customerId data)) (Some (amount data))
                            (Some (status data)) i) rows.
Proof.
  destruct (truthy id) as [i |] eqn:Hid.
  - destruct (omit_id_date (fields_of formData)) as [data | error] eqn:E.
    + rewrite (updateInvoice_valid drv id i prevState formData data rows Hid E),
        updateInvoice_try_run.
      destruct (Sql.fails drv _ rows); cbn [table]; [now left |].
      right. exists i, data. auto.
    + left.
      now rewrite (updateInvoice_invalid drv id i prevState formData error rows
                     Hid E).
  - left. now rewrite (updateInvoice_no_id drv id prevState formData rows Hid).
Qed.

(** Updating under an identifier no row has is not an error: the table is
    as it was, and on an accepted form and a storage that takes the
    statement the success message is returned and /invoices revalidated all
    the same. *)
Theorem updateInvoice_of_unknown_id
        drv (id : option string) (i : string) (prevState : State)
        (formData : FormData.t) (rows : list Sql.Invoice) :
  truthy id = Some i ->
  (forall r, r ∈ rows -> Sql.id r <> i) ->
  table (updateInvoice drv id prevState formData rows) = rows /\
  (~ form_rejected formData ->
   (forall st, Sql.fails drv st rows = None) ->
   returned_message (updateInvoice drv id prevState formData rows)
   = Some "Invoice updated successfully" /\
   Revalidate "/invoices"
     ∈ effects (updateInvoice drv id prevState formData rows)).
Proof.
  intros Hid Habs. split.
  - destruct (updateInvoice_table drv id prevState formData rows)
      as [H | (i' & data & Hid' & _ & H)]; [exact H |].
    rewrite H. apply run_UPDATE_absent.
    rewrite Hid in Hid'. injection Hid' as <-. exact Habs.
  - intros Hacc Hup.
    destruct (form_cases formData)
      as [(Hrej & _) | (_ & vc & va & vs & _ & _ & _ & _ & _ & E)];
      [contradiction |].
    rewrite (updateInvoice_valid drv id i prevState formData _ rows Hid E),
      updateInvoice_try_run, Hup.
    split; [reflexivity |]. cbn [effects].
    apply list_elem_of_further, list_elem_of_here.
Qed.

Lemma updateInvoice_of_unknown_id_witness :
  truthy (Some "inv-9") = Some "inv-9" /\
  (forall r, r ∈ [Samples.inv1] -> Sql.id r <> "inv-9") /\
  table (updateInvoice Samples.up (Some "inv-9") Samples.initialState
           Samples.paid_49_99 [Samples.inv1]) = [Samples.inv1] /\
  returned_message
    (updateInvoice Samples.up (Some "inv-9") Samples.initialState
       Samples.paid_49_99 [Samples.inv1])
  = Some "Invoice updated successfully" /\
  Revalidate "/invoices"
    ∈ effects (updateInvoice Samples.up (Some "inv-9") Samples.initialState
                 Samples.paid_49_99 [Samples.inv1]).
Proof.
  assert (Habs : forall r, r ∈ [Samples.inv1] -> Sql.id r <> "inv-9").
  { intros r Hr. apply elem_of_cons in Hr as [-> | Hr]; [discriminate |].
    now apply elem_of_nil in Hr. }
  assert (Hacc : ~ form_rejected Samples.paid_49_99).
  { intros [H | [H | H]].
    - discriminate H.
    - destruct H as [H | H]; discriminate H.
    - destruct H as [_ H]. now apply H. }
  destruct (updateInvoice_of_unknown_id Samples.up (Some "inv-9") "inv-9"
              Samples.initialState Samples.paid_49_99 [Samples.inv1]
              eq_refl Habs) as [Ht Hm].
  split; [reflexivity |]. split; [exact Habs |]. split; [exact Ht |].
  exact (Hm Hacc (fun _ => eq_refl)).
Defined.

(** [updateInvoice] never adds, removes or reorders rows, and never changes
    an identifier or a date: the identifiers and the dates of the table
    read the same before and after, whatever the input and the storage. *)
Theorem updateInvoice_keeps_ids_and_dates
        drv (id : option string) (prevState : State)
        (formData : FormData.t) (rows : list Sql.Invoice) :
  map Sql.id (table (updateInvoice drv id prevState formData rows))
  = map Sql.id rows /\
  map Sql.date (table (updateInvoice drv id prevState formData rows))
  = map Sql.date rows.
Proof.
  destruct (updateInvoice_table drv id prevState formData rows)
    as [-> | (i & data & _ & _ & ->)]; [now split |].
  apply run_UPDATE_ids.
Qed.

(** The last update wins: on a storage that takes every statement, an update
    with an accepted form leaves the same table whether or not another
    update under the same identifier came just before it. *)
Theorem second_update_wins
        drv (id : option string) (prevState prevState' : State)
        (formData formData' : FormData.t) (rows : list Sql.Invoice) :
  (forall st t, Sql.fails drv st t = None) ->
  ~ form_rejected formData' ->
  table (updateInvoice drv id prevState' formData'
           (table (updateInvoice drv id prevState formData rows))) =
  table (updateInvoice drv id prevState' formData' rows).
Proof.
  intros Hup Hacc.
  destruct (form_cases formData')
    as [(Hrej & _) | (_ & vc & va & vs & _ & _ & _ & _ & _ & E')];
    [contradiction |].
  destruct (truthy id) as [i |] eqn:Hid.
  - rewrite !(updateInvoice_valid drv id i prevState' formData' _ _ Hid E'),
      !updateInvoice_try_run, !Hup.
    cbn [table customerId amount status].
    destruct (updateInvoice_table drv id prevState formData rows)
      as [-> | (i' & data & Hid' & _ & ->)]; [reflexivity |].
    rewrite Hid in Hid'. injection Hid' as <-.
    apply run_UPDATE_twice.
  - now rewrite !(updateInvoice_no_id drv id _ _ _ Hid).
Qed.

Lemma second_update_wins_witness :
  (forall st t, Sql.fails Samples.up st t = None) /\
  ~ form_rejected Samples.paid_49_99 /\
  table (updateInvoice Samples.up (Some "inv-1") Samples.initialState
           Samples.paid_49_99
           (table (updateInvoice Samples.up (Some "inv-1")
                     Samples.initialState
                     (Samples.form "cust-3" "7" "pending")
                     [Samples.inv1; Samples.inv2]))) =
  table (updateInvoice Samples.up (Some "inv-1") Samples.initialState
           Samples.paid_49_99 [Samples.inv1; Samples.inv2]).
Proof.
  assert (Hacc : ~ form_rejected Samples.paid_49_99).
  { intros [H | [H | H]].
    - discriminate H.
    - destruct H as [H | H]; discriminate H.
    - destruct H as [_ H]. now apply H. }
  split; [reflexivity |]. split; [exact Hacc |].
  exact (second_update_wins Samples.up (Some "inv-1") Samples.initialState
           Samples.initialState (Samples.form "cust-3" "7" "pending")
           Samples.paid_49_99 [Samples.inv1; Samples.inv2]
           (fun _ _ => eq_refl) Hacc).
Defined.

(** ** Creating *)

(** The table [createInvoice] leaves: the one it found, or that one with the
    row of the parsed values at its end. *)
Lemma createInvoice_table drv prevState formData rows :
  table (createInvoice drv prevState formData rows) = rows \/
  exists data,
    omit_id_date (fields_of formData) = Zod.Success data /\
    table (createInvoice drv prevState formData rows) =
    (rows ++ [ {| Sql.id := Sql.new_id drv rows;
                  Sql.customer_id := Some (customerId data);
                  Sql.amount := Some (amount data);
                  Sql.status := Some (status data);
                  Sql.date := Sql.now drv |} ])%list.
Proof.
  destruct (omit_id_date (fields_of formData)) as [data | error] eqn:E.
  - rewrite (createInvoice_valid drv prevState formData data rows E),
      createInvoice_try_run.
    destruct (Sql.fails drv _ rows); cbn [table]; [now left |].
    right. exists data. auto.
  - left. now rewrite (createInvoice_invalid drv prevState formData error rows E).
Qed.

Lemma parsed_row_valid formData data i d :
  omit_id_date (fields_of formData) = Zod.Success data ->
  valid_row {| Sql.id := i;
               Sql.customer_id := Some (customerId data);
               Sql.amount := Some (amount data);
               Sql.status := Some (status data);
               Sql.date := d |}.
Proof.
  intros E.
  apply omit_id_date_success in E
    as (vc & va & vs & _ & _ & _ & _ & _ & _ & Hgt & Hs).
  unfold valid_row. cbn [Sql.customer_id Sql.amount Sql.status].
  split; [discriminate |]. split; [eauto |].
  destruct Hs as [-> | ->]; auto.
Qed.

(** The table [deleteInvoice] leaves: the one it found, or what the DELETE
    makes of it. *)
Lemma deleteInvoice_table drv id rows :
  table (deleteInvoice drv id rows) = rows \/
  exists i,
    truthy id = Some i /\
    table (deleteInvoice drv id rows) = Sql.run drv (Sql.DELETE i) rows.
Proof.
  destruct (truthy id) as [i |] eqn:Hid.
  - rewrite (deleteInvoice_run drv id i rows Hid).
    destruct (Sql.fails drv _ rows); cbn [table]; [now left |].
    right. exists i. auto.
  - left. now rewrite (deleteInvoice_no_id drv id rows Hid).
Qed.

(** [createInvoice] never touches a row that is there: the table it leaves
    is the table it found, followed by at most one row, and that row has the
    identifier and the time the storage gives. *)
Theorem createInvoice_only_appends
        drv (prevState : State) (formData : FormData.t)
        (rows : list Sql.Invoice) :
  table (createInvoice drv prevState formData rows) = rows \/
  exists r,
    table (createInvoice drv prevState formData rows) = (rows ++ [r])%list /\
    Sql.id r = Sql.new_id drv rows /\ Sql.date r = Sql.now drv.
Proof.
  destruct (createInvoice_table drv prevState formData rows)
    as [H | (data & _ & H)]; [now left |].
  right. eexists. split; [exact H |]. now split.
Qed.

(** ** What the table holds *)

(** The three invoice actions keep the table valid: if every row has a
    customer, an amount greater than zero and one of the two statuses, so
    has every row of the table an action leaves, whatever the input and the
    storage. *)
Theorem valid_rows_stay_valid
        drv (id : option string) (prevState : State)
        (formData : FormData.t) (rows : list Sql.Invoice) :
  Forall valid_row rows ->
  Forall valid_row (table (createInvoice drv prevState formData rows)) /\
  Forall valid_row (table (updateInvoice drv id prevState formData rows)) /\
  Forall valid_row (table (deleteInvoice drv id rows)).
Proof.
  intros Hrows. split; [| split].
  - destruct (createInvoice_table drv prevState formData rows)
      as [-> | (data & E & ->)]; [exact Hrows |].
    apply Forall_app. split; [exact Hrows |].
    apply Forall_cons. split; [| apply Forall_nil; exact I].
    now apply (parsed_row_valid formData).
  - destruct (updateInvoice_table drv id prevState formData rows)
      as [-> | (i & data & _ & E & ->)]; [exact Hrows |].
    cbn [Sql.run]. induction Hrows as [| r rows Hr Hrows IH]; cbn [map].
    + apply Forall_nil. exact I.
    + apply Forall_cons. split; [| exact IH].
      destruct (String.eqb (Sql.id r) i); [| exact Hr].
      now apply (parsed_row_valid formData).
  - destruct (deleteInvoice_table drv id rows) as [-> | (i & _ & ->)];
      [exact Hrows |].
    cbn [Sql.run]. induction Hrows as [| r rows Hr Hrows IH]; cbn [List.filter].
    + apply Forall_nil. exact I.
    + destruct (negb _); [| exact IH].
      apply Forall_cons. now split.
Qed.

Lemma valid_rows_stay_valid_witness :
  Forall valid_row [Samples.inv1; Samples.inv2] /\
  Forall valid_row
    (table (createInvoice Samples.up Samples.initialState Samples.paid_49_99
              [Samples.inv1; Samples.inv2])) /\
  Forall valid_row
    (table (updateInvoice Samples.up (Some "inv-1") Samples.initialState
              Samples.paid_49_99 [Samples.inv1; Samples.inv2])) /\
  Forall valid_row
    (table (deleteInvoice Samples.up (Some "inv-1")
              [Samples.inv1; Samples.inv2])).
Proof.
  assert (H : Forall valid_row [Samples.inv1; Samples.inv2]).
  { apply Forall_cons. split.
    - split; [discriminate |]. split; [| now left].
      exists (JS.of_Z 20). now split.
    - apply Forall_cons. split; [| apply Forall_nil; exact I].
      split; [discriminate |]. split; [| now right].
      exists (JS.of_Z 5). now split. }
  split; [exact H |].
  exact (valid_rows_stay_valid Samples.up (Some "inv-1") Samples.initialState
           Samples.paid_49_99 [Samples.inv1; Samples.inv2] H).
Defined.

(** ** Creating, then deleting *)

(** Deleting the invoice just created gives back the table: when the
    identifier the storage gives the new row is not empty and is not yet in
    the table, and the storage takes the statements, [deleteInvoice] under
    that identifier after [createInvoice] leaves the table [createInvoice]
    found. *)
Theorem create_then_delete_restores
        drv (prevState : State) (formData : FormData.t)
        (rows : list Sql.Invoice) :
  (forall st t, Sql.fails drv st t = None) ->
  Sql.new_id drv rows <> "" ->
  (forall r, r ∈ rows -> Sql.id r <> Sql.new_id drv rows) ->
  table (deleteInvoice drv (Some (Sql.new_id drv rows))
           (table (createInvoice drv prevState formData rows))) = rows.
Proof.
  intros Hup Hne Hfresh.
  assert (Hid : truthy (Some (Sql.new_id drv rows)) = Some (Sql.new_id drv rows)).
  { cbn. destruct (Sql.new_id drv rows); [contradiction | reflexivity]. }
  rewrite (deleteInvoice_run drv _ _ _ Hid), Hup. cbn [table].
  destruct (createInvoice_table drv prevState formData rows)
    as [-> | (data & _ & ->)].
  - now apply run_DELETE_absent.
  - cbn [Sql.run]. rewrite List.filter_app.
    change (List.filter
              (fun r => negb (String.eqb (Sql.id r) (Sql.new_id drv rows)))
              rows)
      with (Sql.run drv (Sql.DELETE (Sql.new_id drv rows)) rows).
    rewrite (run_DELETE_absent drv _ rows Hfresh).
    cbn [List.filter Sql.id]. rewrite String.eqb_refl. cbn [negb].
    apply app_nil_r.
Qed.

Lemma create_then_delete_restores_witness :
  (forall st t, Sql.fails Samples.up st t = None) /\
  Sql.new_id Samples.up [Samples.inv1; Samples.inv2] <> "" /\
  (forall r,
      r ∈ [Samples.inv1; Samples.inv2] ->
      Sql.id r <> Sql.new_id Samples.up [Samples.inv1; Samples.inv2]) /\
  table (deleteInvoice Samples.up
           (Some (Sql.new_id Samples.up [Samples.inv1; Samples.inv2]))
           (table (createInvoice Samples.up Samples.initialState
                     Samples.paid_49_99 [Samples.inv1; Samples.inv2]))) =
  [Samples.inv1; Samples.inv2].
Proof.
  assert (Hfresh : forall r,
             r ∈ [Samples.inv1; Samples.inv2] ->
             Sql.id r <> Sql.new_id Samples.up [Samples.inv1; Samples.inv2]).
  { intros r Hr.
    apply elem_of_cons in Hr as [-> | Hr]; [discriminate |].
    apply elem_of_cons in Hr as [-> | Hr]; [discriminate |].
    now apply elem_of_nil in Hr. }
  assert (Hne : Sql.new_id Samples.up [Samples.inv1; Samples.inv2] <> "")
    by discriminate.
  split; [reflexivity |]. split; [exact Hne |]. split; [exact Hfresh |].
  exact (create_then_delete_restores Samples.up Samples.initialState
           Samples.paid_49_99 [Samples.inv1; Samples.inv2]
           (fun _ _ => eq_refl) Hne Hfresh).
Defined.

(** ** What [authenticate] lets out *)

(** [authenticate] returns one of three texts and nothing else, and what it
    throws is what [signIn] threw and is never an [AuthError]. *)
Theorem authenticate_results
        (signIn : string -> FormData.t -> JS.Completion unit)
        (prevState : option string) (formData : FormData.t) :
  (forall s,
      authenticate signIn prevState formData = JS.Normal s ->
      s = "Success" \/ s = "Invalid credentials."
      \/ s = "Something went wrong.") /\
  (forall e,
      authenticate signIn prevState formData = JS.Throw e ->
      signIn "credentials" formData = JS.Throw e /\
      forall type m, e <> JS.AuthError type m).
Proof.
  unfold authenticate.
  destruct (signIn "credentials" formData) as [u | [type m | m | url]].
  - split; [intros s [= <-]; auto | intros e H; discriminate H].
  - destruct (String.eqb type "CredentialsSignin");
      (split; [intros s [= <-]; auto | intros e H; discriminate H]).
  - split; [intros s H; discriminate H |].
    intros e [= <-]. split; [reflexivity | discriminate].
  - split; [intros s H; discriminate H |].
    intros e [= <-]. split; [reflexivity | discriminate].
Qed.

Lemma authenticate_results_witness :
  authenticate signIn_redirecting None Samples.paid_49_99
  = JS.Throw (JS.NEXT_REDIRECT "/dashboard") /\
  signIn_redirecting "credentials" Samples.paid_49_99
  = JS.Throw (JS.NEXT_REDIRECT "/dashboard") /\
  forall type m, JS.NEXT_REDIRECT "/dashboard" <> JS.AuthError type m.
Proof.
  split; [reflexivity |].
  exact (proj2 (authenticate_results signIn_redirecting None
                  Samples.paid_49_99)
               (JS.NEXT_REDIRECT "/dashboard") eq_refl).
Defined.

(** ** What the invoice actions read *)

(** The invoice actions read the first customerId, amount and status of the
    form and nothing else: two forms that agree on these, under whatever
    previous states, give the same run; other entries, such as an id or a
    date, and later values under the same names, make no difference. *)
Theorem only_three_fields_are_read
        drv (id : option string) (prevState prevState' : State)
        (formData formData' : FormData.t) (rows : list Sql.Invoice) :
  FormData.get formData "customerId" = FormData.get formData' "customerId" ->
  FormData.get formData "amount" = FormData.get formData' "amount" ->
  FormData.get formData "status" = FormData.get formData' "status" ->
  createInvoice drv prevState formData rows
  = createInvoice drv prevState' formData' rows /\
  updateInvoice drv id prevState formData rows
  = updateInvoice drv id prevState' formData' rows.
Proof.
  intros Hc Ha Hs.
  assert (E : fields_of formData = fields_of formData')
    by (unfold fields_of; now rewrite Hc, Ha, Hs).
  unfold createInvoice, updateInvoice. now rewrite E.
Qed.

Lemma only_three_fields_are_read_witness :
  FormData.get Samples.paid_49_99 "customerId"
  = FormData.get crowded_form "customerId" /\
  FormData.get Samples.paid_49_99 "amount"
  = FormData.get crowded_form "amount" /\
  FormData.get Samples.paid_49_99 "status"
  = FormData.get crowded_form "status" /\
  createInvoice Samples.up Samples.initialState Samples.paid_49_99
                [Samples.inv1]
  = createInvoice Samples.up (message_only "Invoice created successfully")
                  crowded_form [Samples.inv1] /\
  updateInvoice Samples.up (Some "inv-1") Samples.initialState
                Samples.paid_49_99 [Samples.inv1]
  = updateInvoice Samples.up (Some "inv-1")
                  (message_only "Invoice created successfully")
                  crowded_form [Samples.inv1].
Proof.
  do 3 (split; [reflexivity |]).
  exact (only_three_fields_are_read Samples.up (Some "inv-1")
           Samples.initialState (message_only "Invoice created successfully")
           Samples.paid_49_99 crowded_form [Samples.inv1]
           eq_refl eq_refl eq_refl).
Defined.

(** ** The statement of each action *)

Lemma truthy_Some (id : option string) (i : string) :
  truthy id = Some i -> id = Some i /\ i <> "".
Proof.
  destruct id as [[| ch s] |]; cbn; intros [= <-]. split; [reflexivity |].
  discriminate.
Qed.

(** Each action sends only its own kind of statement: [createInvoice] an
    INSERT, [updateInvoice] an UPDATE and [deleteInvoice] a DELETE; no
    parameter of an INSERT or an UPDATE is null, and the identifier of an
    UPDATE or a DELETE is the one the action was given and is never
    empty. *)
Theorem each_action_sends_its_own_statement
        drv (id : option string) (prevState : State)
        (formData : FormData.t) (rows : list Sql.Invoice)
        (st : Sql.Statement) :
  (Query st ∈ effects (createInvoice drv prevState formData rows) ->
   exists c a s, st = Sql.INSERT (Some c) (Some a) (Some s)) /\
  (Query st ∈ effects (updateInvoice drv id prevState formData rows) ->
   exists i c a s,
     id = Some i /\ i <> "" /\ st = Sql.UPDATE (Some c) (Some a) (Some s) i)
  /\
  (Query st ∈ effects (deleteInvoice drv id rows) ->
   exists i, id = Some i /\ i <> "" /\ st = Sql.DELETE i).
Proof.
  split; [| split]; intros H.
  - apply createInvoice_query in H as (data & _ & ->). eauto.
  - apply updateInvoice_query in H as (i & data & Hid & _ & ->).
    apply truthy_Some in Hid as [-> Hne]. eauto 8.
  - apply deleteInvoice_query in H as (i & Hid & ->).
    apply truthy_Some in Hid as [-> Hne]. eauto.
Qed.

Lemma each_action_sends_its_own_statement_witness :
  Query (Sql.DELETE "inv-1")
    ∈ effects (deleteInvoice Samples.up (Some "inv-1") [Samples.inv1]) /\
  exists i,
    Some "inv-1" = Some i /\ i <> "" /\ Sql.DELETE "inv-1" = Sql.DELETE i.
Proof.
  assert (H : Query (Sql.DELETE "inv-1")
                ∈ effects (deleteInvoice Samples.up (Some "inv-1")
                             [Samples.inv1])) by apply list_elem_of_here.
  split; [exact H |].
  exact (proj2 (proj2 (each_action_sends_its_own_statement Samples.up
                         (Some "inv-1") Samples.initialState
                         Samples.paid_49_99 [Samples.inv1]
                         (Sql.DELETE "inv-1"))) H).
Defined.

(** ** The status message, on every form *)

(** The text written in the schema, "Please select an invoice status.", is
    recorded by neither action on any form: what is recorded under status
    is the default text for a missing value or the default text for a value
    outside the enumeration. *)
Lemma schema_status_text_is_never_recorded
      drv (id : option string) (prevState : State) (formData : FormData.t)
      rows :
  field_errors (createInvoice drv prevState formData rows) "status"
  <> Some ["Please select an invoice status."] /\
  field_errors (updateInvoice drv id prevState formData rows) "status"
  <> Some ["Please select an invoice status."].
Proof.
  assert (Hmsg : status_message formData
                 <> "Please select an invoice status.").
  { unfold status_message.
    destruct (FormData.get formData "status"); cbn; discriminate. }
  assert (Hnone : ~ status_rejected formData ->
                  forall error,
                    omit_id_date (fields_of formData) = Zod.Failure error ->
                    Zod.flatten error !! "status"
                    <> Some ["Please select an invoice status."]).
  { intros Hn error He Hl.
    destruct (form_cases formData)
      as [(_ & error' & He' & Hkeys) | (_ & vc & va & vs & H)].
    - rewrite He in He'. injection He' as <-.
      destruct (proj1 (Hkeys "status")) as [[Hk _] | [[Hk _] | [_ Hr]]];
        [eexists; split; [exact Hl | discriminate]
        | discriminate Hk | discriminate Hk | contradiction].
    - destruct H as (_ & _ & _ & _ & _ & Hs). rewrite He in Hs.
      discriminate Hs. }
  destruct (status_field formData) as [(Rs & _) | (vs & _ & Ns & _)].
  - destruct (rejected_status_message drv prevState formData rows Rs)
      as [Hc Hu].
    split.
    + rewrite Hc. intros [= H]. contradiction.
    + destruct (truthy id) as [i |] eqn:Hid.
      * rewrite (Hu id i Hid). intros [= H]. contradiction.
      * rewrite (updateInvoice_no_id drv id prevState formData rows Hid).
        discriminate.
  - split.
    + unfold createInvoice, createInvoiceSchema.
      destruct (omit_id_date (fields_of formData)) as [data | error] eqn:E.
      * rewrite createInvoice_try_run.
        destruct (Sql.fails drv _ rows); discriminate.
      * exact (Hnone Ns error eq_refl).
    + unfold updateInvoice, updateInvoiceSchema.
      destruct (truthy id) as [i |]; [| discriminate].
      destruct (omit_id_date (fields_of formData)) as [data | error] eqn:E.
      * rewrite updateInvoice_try_run.
        destruct (Sql.fails drv _ rows); discriminate.
      * exact (Hnone Ns error eq_refl).
Qed.
